(** * V2Ray configuration converter: validation and URI encoding

    A shallow embedding of [validators.py], [v2ray_converter.py] and the
    UUID check of [utils.py], together with the parts of the Python
    standard library and of pydantic that this code calls.

    Modelling conventions.
    - A Python [str] is a [string]; each [ascii] stands for the code point
      of the same number, so the model covers the strings whose characters
      lie in U+0000..U+00FF.
    - A Python [int] is a [Z].
    - A [dict] that is only read by key is a [gmap string _]; a [dict] that
      is iterated (query parameters, the VMess object) is the list of its
      items in insertion order.
    - A call that may raise returns a sum: [inl] carries the exception,
      [inr] the value.
    - Python [float] values are not modelled: a JSON number with a fraction
      or an exponent puts the input outside the model (see [json.loads]). *)

From Stdlib Require Import ZArith NArith String Ascii List Lia.
From Stdlib Require Import DecimalString DecimalPos.
From stdpp Require Import gmap strings list fin_maps.

Open Scope string_scope.

(** * Python built-ins *)

Module Py.

Definition code (c : ascii) : N := N_of_ascii c.
Definition chr (n : N) : ascii := ascii_of_N n.

Definition between (lo hi : N) (c : ascii) : bool :=
  ((lo <=? code c) && (code c <=? hi))%N.

Definition is_char (n : N) (c : ascii) : bool := (code c =? n)%N.

(** [str.lower] on U+0000..U+00FF: A-Z and the upper-case letters
    U+00C0..U+00DE (the multiplication sign U+00D7 apart) move up by 32. *)
Definition lower_char (c : ascii) : ascii :=
  if between 65 90 c || (between 192 222 c && negb (is_char 215 c))
  then chr (code c + 32) else c.

Fixpoint lower (s : string) : string :=
  match s with
  | EmptyString => EmptyString
  | String c s' => String (lower_char c) (lower s')
  end.

(** [len(s)] *)
Definition len (s : string) : Z := Z.of_nat (String.length s).

(** [str(n)] and [f"{n}"] for an [int]. *)
Definition str_of_int (n : Z) : string := NilZero.string_of_int (Z.to_int n).

(** [str(b)] for a [bool]. *)
Definition str_of_bool (b : bool) : string := if b then "True" else "False".

(** [sep.join(l)] *)
Definition join (sep : string) (l : list string) : string := String.concat sep l.

(** [x in l] for a list of strings. *)
Definition mem (x : string) (l : list string) : bool :=
  existsb (String.eqb x) l.

(** [s.replace(old, "")]: occurrences of [old] are removed from left to
    right, without overlap.  [skip] counts the characters of the current
    occurrence that are still to be dropped. *)
Fixpoint remove_from (old : string) (skip : nat) (s : string) : string :=
  match s with
  | EmptyString => EmptyString
  | String c s' =>
      match skip with
      | S k => remove_from old k s'
      | O =>
          if negb (String.eqb old "") && String.prefix old s
          then remove_from old (String.length old - 1) s'
          else String c (remove_from old 0 s')
      end
  end.

Definition remove (old s : string) : string := remove_from old 0 s.

(** [s[n:]] *)
Fixpoint drop (n : nat) (s : string) : string :=
  match n, s with
  | S k, String _ s' => drop k s'
  | _, _ => s
  end.

(** [s.strip(chars)] *)
Fixpoint contains (c : ascii) (chars : string) : bool :=
  match chars with
  | EmptyString => false
  | String d chars' => Ascii.eqb c d || contains c chars'
  end.

Fixpoint lstrip (chars s : string) : string :=
  match s with
  | EmptyString => EmptyString
  | String c s' => if contains c chars then lstrip chars s' else s
  end.

Fixpoint rstrip (chars s : string) : string :=
  match s with
  | EmptyString => EmptyString
  | String c s' =>
      match rstrip chars s' with
      | EmptyString => if contains c chars then EmptyString else String c EmptyString
      | r => String c r
      end
  end.

Definition strip (chars s : string) : string := rstrip chars (lstrip chars s).

(** ** [int(s, base)] for a [str]

    Leading and trailing white space is skipped, one sign is allowed, for
    base 16 a [0x] or [0X] prefix (which one underscore may follow), then
    at least one digit; single underscores may separate digits.  White
    space here is tab, line feed, vertical tab, form feed, carriage
    return, space, U+0085 and U+00A0.  The limit that recent interpreters
    put on the number of digits is not modelled. *)

Definition is_space (c : ascii) : bool :=
  between 9 13 c || is_char 32 c || is_char 133 c || is_char 160 c.

Fixpoint all_space (s : string) : bool :=
  match s with
  | EmptyString => true
  | String c s' => is_space c && all_space s'
  end.

Fixpoint skip_space (s : string) : string :=
  match s with
  | EmptyString => EmptyString
  | String c s' => if is_space c then skip_space s' else s
  end.

Definition digit_value (c : ascii) : option Z :=
  if between 48 57 c then Some (Z.of_N (code c) - 48)%Z
  else if between 97 122 c then Some (Z.of_N (code c) - 87)%Z
  else if between 65 90 c then Some (Z.of_N (code c) - 55)%Z
  else None.

(** [after_digit] tells whether the previous character was a digit; it is
    [false] at the start and after an underscore. *)
Fixpoint int_digits (base acc : Z) (after_digit : bool) (s : string) : option Z :=
  match s with
  | EmptyString => if after_digit then Some acc else None
  | String c s' =>
      if is_char 95 c then
        if after_digit then int_digits base acc false s' else None
      else
        match digit_value c with
        | Some d =>
            if (d <? base)%Z then int_digits base (acc * base + d)%Z true s'
            else if after_digit && all_space s then Some acc else None
        | None => if after_digit && all_space s then Some acc else None
        end
  end.

Definition skip_hex_prefix (s : string) : string :=
  match s with
  | String c0 (String c1 s') =>
      if is_char 48 c0 && (is_char 120 c1 || is_char 88 c1) then
        match s' with
        | String c2 s'' => if is_char 95 c2 then s'' else s'
        | EmptyString => s'
        end
      else s
  | _ => s
  end.

Definition int_of_str (base : Z) (s : string) : option Z :=
  let s := skip_space s in
  let '(sign, s) :=
    match s with
    | String c s' =>
        if is_char 43 c then (1%Z, s')
        else if is_char 45 c then ((-1)%Z, s')
        else (1%Z, s)
    | EmptyString => (1%Z, s)
    end in
  let s := if (base =? 16)%Z then skip_hex_prefix s else s in
  (λ n, sign * n)%Z <$> int_digits base 0 false s.

(** Truth value of an [Optional[str]]: [None] and the empty string are
    false. *)
Definition truthy (o : option string) : bool :=
  match o with
  | Some s => negb (String.eqb s "")
  | None => false
  end.

(** [o or d] for an [Optional[str]] [o]. *)
Definition or_else (o : option string) (d : string) : string :=
  match o with
  | Some s => if String.eqb s "" then d else s
  | None => d
  end.

(** [s.encode()]: UTF-8.  A code point below U+0080 is one byte, the
    others of this model are two. *)
Fixpoint encode (s : string) : string :=
  match s with
  | EmptyString => EmptyString
  | String c s' =>
      if (code c <? 128)%N then String c (encode s')
      else String (chr (192 + N.shiftr (code c) 6))
             (String (chr (128 + N.land (code c) 63)) (encode s'))
  end.

Definition hex_digit (upper : bool) (n : N) : ascii :=
  if (n <? 10)%N then chr (48 + n)
  else if upper then chr (55 + n) else chr (87 + n).

End Py.

(** * [urllib.parse] *)

Module urllib.

(** The characters that are never quoted: letters, digits and [_.-~]. *)
Definition always_safe (c : ascii) : bool :=
  Py.between 65 90 c || Py.between 97 122 c || Py.between 48 57 c
  || Py.contains c "_.-~".

Definition percent (c : ascii) : string :=
  String "%" (String (Py.hex_digit true (N.shiftr (Py.code c) 4))
    (String (Py.hex_digit true (N.land (Py.code c) 15)) EmptyString)).

Fixpoint quote_bytes (safe : string) (bs : string) : string :=
  match bs with
  | EmptyString => EmptyString
  | String c bs' =>
      (if always_safe c || Py.contains c safe
       then String c EmptyString else percent c) ++ quote_bytes safe bs'
  end.

(** [quote(s)], with its default [safe="/"]. *)
Definition quote (s : string) : string := quote_bytes "/" (Py.encode s).

Fixpoint spaces_to_plus (s : string) : string :=
  match s with
  | EmptyString => EmptyString
  | String c s' => String (if Py.is_char 32 c then "+"%char else c) (spaces_to_plus s')
  end.

(** [quote_plus(s)], with [safe=""] as [urlencode] calls it: the space is
    kept by [quote] and then replaced by a plus sign. *)
Definition quote_plus (s : string) : string :=
  spaces_to_plus (quote_bytes " " (Py.encode s)).

(** [urlencode(params)] for a dict of strings, given as its items. *)
Definition urlencode (params : list (string * string)) : string :=
  Py.join "&" (map (λ kv, quote_plus kv.1 ++ "=" ++ quote_plus kv.2) params).

End urllib.

(** * [base64] *)

Module base64.

Definition alphabet (n : N) : ascii :=
  if (n <? 26)%N then Py.chr (65 + n)
  else if (n <? 52)%N then Py.chr (71 + n)
  else if (n <? 62)%N then Py.chr (n - 4)
  else if (n =? 62)%N then "+"%char else "/"%char.

(** [b64encode(bs)]: three bytes give four characters; a last group of one
    or two bytes is padded with [=]. *)
Fixpoint b64encode (bs : string) : string :=
  match bs with
  | EmptyString => EmptyString
  | String a EmptyString =>
      let a := Py.code a in
      String (alphabet (N.shiftr a 2))
        (String (alphabet (N.shiftl (N.land a 3) 4)) "==")
  | String a (String b EmptyString) =>
      let a := Py.code a in
      let b := Py.code b in
      String (alphabet (N.shiftr a 2))
        (String (alphabet (N.lor (N.shiftl (N.land a 3) 4) (N.shiftr b 4)))
          (String (alphabet (N.shiftl (N.land b 15) 2)) "="))
  | String a (String b (String c bs')) =>
      let a := Py.code a in
      let b := Py.code b in
      let c := Py.code c in
      String (alphabet (N.shiftr a 2))
        (String (alphabet (N.lor (N.shiftl (N.land a 3) 4) (N.shiftr b 4)))
          (String (alphabet (N.lor (N.shiftl (N.land b 15) 2) (N.shiftr c 6)))
            (String (alphabet (N.land c 63)) (b64encode bs'))))
  end.

End base64.

(** * [uuid] *)

Module uuid.

(** [uuid.UUID(hex)] raises [ValueError] unless, once [urn:] and [uuid:]
    are removed, braces stripped from both ends and hyphens removed, 32
    characters are left that [int(_, 16)] accepts.  The function tells
    whether the constructor returns. *)
Definition UUID (hex : string) : bool :=
  let hex := Py.remove "uuid:" (Py.remove "urn:" hex) in
  let hex := Py.remove "-" (Py.strip "{}" hex) in
  if (Py.len hex =? 32)%Z then bool_decide (is_Some (Py.int_of_str 16 hex))
  else false.

End uuid.

(** * [json] *)

#[warnings="-register-all"]
Inductive json : Type :=
| JNull
| JBool (b : bool)
| JInt (n : Z)
| JStr (s : string)
| JArray (items : list json)
| JObject (members : gmap string json).

Module Json.

Definition dquote : ascii := "034"%char.
Definition backslash : ascii := "092"%char.

(** ** [json.dumps] of a dict of strings and integers

    The dict is given as its items in insertion order.  With the default
    [ensure_ascii] every character outside U+0020..U+007E is escaped. *)

Inductive atom : Type :=
| AStr (s : string)
| AInt (n : Z).

Definition escape_char (c : ascii) : string :=
  if Ascii.eqb c dquote then String backslash (String dquote EmptyString)
  else if Ascii.eqb c backslash then String backslash (String backslash EmptyString)
  else if Py.is_char 10 c then String backslash "n"
  else if Py.is_char 13 c then String backslash "r"
  else if Py.is_char 9 c then String backslash "t"
  else if Py.is_char 12 c then String backslash "f"
  else if Py.is_char 8 c then String backslash "b"
  else if Py.between 32 126 c then String c EmptyString
  else String backslash
         (String "u" (String "0" (String "0"
           (String (Py.hex_digit false (N.shiftr (Py.code c) 4))
             (String (Py.hex_digit false (N.land (Py.code c) 15)) EmptyString))))).

Fixpoint escape (s : string) : string :=
  match s with
  | EmptyString => EmptyString
  | String c s' => escape_char c ++ escape s'
  end.

Definition dumps_str (s : string) : string :=
  String dquote (escape s ++ String dquote EmptyString).

Definition dumps_atom (a : atom) : string :=
  match a with
  | AStr s => dumps_str s
  | AInt n => Py.str_of_int n
  end.

(** [json.dumps(obj, separators=(',', ':'))] *)
Definition dumps (obj : list (string * atom)) : string :=
  "{" ++ Py.join "," (map (λ kv, dumps_str kv.1 ++ ":" ++ dumps_atom kv.2) obj) ++ "}".

(** ** [json.loads]

    The decoder of the standard library, for texts whose numbers are
    integers and whose [\u] escapes stay below U+0100.  A text with a
    fraction, an exponent, [NaN], [Infinity] or a larger escape is
    [NotModelled]: the model does not say what the program does with
    it. *)

Inductive scanned (A : Type) : Type :=
| Ok (a : A) (rest : string)
| Bad
| Outside.
Arguments Ok {A} a rest.
Arguments Bad {A}.
Arguments Outside {A}.

Definition is_ws (c : ascii) : bool :=
  Py.is_char 32 c || Py.is_char 9 c || Py.is_char 10 c || Py.is_char 13 c.

Fixpoint skip_ws (s : string) : string :=
  match s with
  | EmptyString => EmptyString
  | String c s' => if is_ws c then skip_ws s' else s
  end.

Definition hex_value (c : ascii) : option N :=
  if Py.between 48 57 c then Some (Py.code c - 48)%N
  else if Py.between 97 102 c then Some (Py.code c - 87)%N
  else if Py.between 65 70 c then Some (Py.code c - 55)%N
  else None.

Definition hex4 (a b c d : ascii) : option N :=
  a ← hex_value a; b ← hex_value b; c ← hex_value c; d ← hex_value d;
  Some (((a * 16 + b) * 16 + c) * 16 + d)%N.

(** The text after an opening quote, up to the closing one.  Control
    characters are refused, as the decoder is strict by default. *)
Fixpoint scanstring (s : string) : scanned string :=
  match s with
  | EmptyString => Bad
  | String c s' =>
      if Ascii.eqb c dquote then Ok EmptyString s'
      else if Ascii.eqb c backslash then
        match s' with
        | String e r =>
            let plain (x : ascii) :=
              match scanstring r with
              | Ok t rest => Ok (String x t) rest
              | Bad => Bad
              | Outside => Outside
              end in
            if Ascii.eqb e dquote then plain dquote
            else if Ascii.eqb e backslash then plain backslash
            else if Ascii.eqb e "/" then plain "/"%char
            else if Ascii.eqb e "b" then plain (Py.chr 8)
            else if Ascii.eqb e "f" then plain (Py.chr 12)
            else if Ascii.eqb e "n" then plain (Py.chr 10)
            else if Ascii.eqb e "r" then plain (Py.chr 13)
            else if Ascii.eqb e "t" then plain (Py.chr 9)
            else if Ascii.eqb e "u" then
              match r with
              | String h1 (String h2 (String h3 (String h4 r'))) =>
                  match hex4 h1 h2 h3 h4 with
                  | Some n =>
                      if (n <? 256)%N then
                        match scanstring r' with
                        | Ok t rest => Ok (String (Py.chr n) t) rest
                        | Bad => Bad
                        | Outside => Outside
                        end
                      else Outside
                  | None => Bad
                  end
              | _ => Bad
              end
            else Bad
        | EmptyString => Bad
        end
      else if (Py.code c <? 32)%N then Bad
      else
        match scanstring s' with
        | Ok t rest => Ok (String c t) rest
        | Bad => Bad
        | Outside => Outside
        end
  end.

Definition is_digit (c : ascii) : bool := Py.between 48 57 c.

Fixpoint digits (acc : Z) (s : string) : Z * string :=
  match s with
  | String c s' =>
      if is_digit c then digits (acc * 10 + (Z.of_N (Py.code c) - 48))%Z s'
      else (acc, s)
  | EmptyString => (acc, s)
  end.

Definition starts_with_digit (s : string) : bool :=
  match s with
  | String c _ => is_digit c
  | EmptyString => false
  end.

(** What follows the integer part makes the number a float when it is a
    point and a digit, or an [e] or [E], an optional sign and a digit. *)
Definition float_tail (s : string) : bool :=
  match s with
  | String c s' =>
      if Ascii.eqb c "." then starts_with_digit s'
      else if Ascii.eqb c "e" || Ascii.eqb c "E" then
        match s' with
        | String d s'' =>
            if Ascii.eqb d "+" || Ascii.eqb d "-" then starts_with_digit s''
            else is_digit d
        | EmptyString => false
        end
      else false
  | EmptyString => false
  end.

(** The integer part is a single [0] or a digit from 1 to 9 and the
    digits after it. *)
Definition scan_number (s : string) : scanned json :=
  let '(negative, body) :=
    match s with
    | String c s' => if Ascii.eqb c "-" then (true, s') else (false, s)
    | EmptyString => (false, s)
    end in
  match body with
  | String c body' =>
      if is_digit c then
        let '(n, rest) :=
          if Ascii.eqb c "0" then (0%Z, body') else digits 0 body in
        if float_tail rest then Outside
        else Ok (JInt (if negative then - n else n)) rest
      else if negative && String.prefix "Infinity" body then Outside
      else Bad
  | EmptyString => Bad
  end.

Fixpoint scan_once (fuel : nat) (s : string) : scanned json :=
  match fuel with
  | O => Outside
  | S fuel =>
      match s with
      | EmptyString => Bad
      | String c s' =>
          if Ascii.eqb c dquote then
            match scanstring s' with
            | Ok t rest => Ok (JStr t) rest
            | Bad => Bad
            | Outside => Outside
            end
          else if Ascii.eqb c "{" then
            match skip_ws s' with
            | String d r =>
                if Ascii.eqb d "}" then Ok (JObject ∅) r
                else if Ascii.eqb d dquote then scan_members fuel ∅ r
                else Bad
            | EmptyString => Bad
            end
          else if Ascii.eqb c "[" then
            match skip_ws s' with
            | String d r =>
                if Ascii.eqb d "]" then Ok (JArray []) r
                else scan_items fuel [] (String d r)
            | EmptyString => Bad
            end
          else if String.prefix "null" s then Ok JNull (Py.drop 4 s)
          else if String.prefix "true" s then Ok (JBool true) (Py.drop 4 s)
          else if String.prefix "false" s then Ok (JBool false) (Py.drop 5 s)
          else
            match scan_number s with
            | Ok v rest => Ok v rest
            | Outside => Outside
            | Bad =>
                if String.prefix "NaN" s || String.prefix "Infinity" s
                then Outside else Bad
            end
      end
  end

(** The members of an object, from just after the opening quote of a key.
    A repeated key keeps its last value. *)
with scan_members (fuel : nat) (acc : gmap string json) (s : string) : scanned json :=
  match fuel with
  | O => Outside
  | S fuel =>
      match scanstring s with
      | Ok key r =>
          match skip_ws r with
          | String c r1 =>
              if Ascii.eqb c ":" then
                match scan_once fuel (skip_ws r1) with
                | Ok v r2 =>
                    match skip_ws r2 with
                    | String d r3 =>
                        if Ascii.eqb d "}" then Ok (JObject (<[key:=v]> acc)) r3
                        else if Ascii.eqb d "," then
                          match skip_ws r3 with
                          | String q r4 =>
                              if Ascii.eqb q dquote
                              then scan_members fuel (<[key:=v]> acc) r4
                              else Bad
                          | EmptyString => Bad
                          end
                        else Bad
                    | EmptyString => Bad
                    end
                | Bad => Bad
                | Outside => Outside
                end
              else Bad
          | EmptyString => Bad
          end
      | Bad => Bad
      | Outside => Outside
      end
  end

(** The items of an array, from the first character of an item. *)
with scan_items (fuel : nat) (acc : list json) (s : string) : scanned json :=
  match fuel with
  | O => Outside
  | S fuel =>
      match scan_once fuel s with
      | Ok v r =>
          match skip_ws r with
          | String d r1 =>
              if Ascii.eqb d "]" then Ok (JArray (acc ++ [v])%list) r1
              else if Ascii.eqb d "," then scan_items fuel (acc ++ [v])%list (skip_ws r1)
              else Bad
          | EmptyString => Bad
          end
      | Bad => Bad
      | Outside => Outside
      end
  end.

Inductive loaded : Type :=
| Value (v : json)
| JSONDecodeError
| NotModelled.

Definition loads (s : string) : loaded :=
  match scan_once (S (String.length s)) (skip_ws s) with
  | Ok v rest =>
      match skip_ws rest with
      | EmptyString => Value v
      | String _ _ => JSONDecodeError
      end
  | Bad => JSONDecodeError
  | Outside => NotModelled
  end.

End Json.

(** * Exceptions *)

Module pydantic_errors.

(** What pydantic records for one field. *)
Inductive error : Type :=
| MissingError               (* field required *)
| NoneIsNotAllowedError      (* none is not an allowed value *)
| StrError                   (* str type expected *)
| IntegerError               (* value is not a valid integer *)
| ValueError (msg : string). (* raised by a validator of the class *)

(** [ErrorWrapper(exc, loc)], as the pair of the location and the error. *)
Definition ErrorWrapper : Type := string * error.

End pydantic_errors.
Export pydantic_errors.

(** The exceptions a protocol handler can raise. *)
Inductive Exception : Type :=
| ValidationError (model : string) (errors : list ErrorWrapper)
| AttributeError (msg : string).

(** * pydantic

    The model is the one of [BaseModel.__init__] and [validate_model] for
    classes that keep the default [Extra.ignore] and set
    [allow_population_by_field_name]: every declared field is looked up
    under its alias, then under its name; keys of the input that no field
    reads are ignored (a key that clashes with the name of the first
    parameter of the constructor itself is not considered); the errors of
    all fields are gathered, in the order of the declarations, into one
    [ValidationError]. *)

Module pydantic.

(** The outcome of validating a field or a prefix of the fields. *)
Definition checked (A : Type) : Type := list ErrorWrapper + A.

Definition errors_of {A} (r : checked A) : list ErrorWrapper :=
  match r with
  | inl errs => errs
  | inr _ => []
  end.

(** Validating one more field: errors add up. *)
Definition ap {A B} (f : checked (A → B)) (x : checked A) : checked B :=
  match f, x with
  | inr f, inr a => inr (f a)
  | inl errs, inr _ => inl errs
  | inr _, inl errs => inl errs
  | inl errs1, inl errs2 => inl (errs1 ++ errs2)%list
  end.

Notation "f <*> x" := (ap f x) (at level 61, left associativity).

(** [str_validator]: a [str] is kept, a number (a [bool] is one) goes
    through [str]. *)
Definition str_validator (v : json) : option string :=
  match v with
  | JStr s => Some s
  | JInt n => Some (Py.str_of_int n)
  | JBool b => Some (Py.str_of_bool b)
  | _ => None
  end.

(** [int_validator]: an [int] that is not a [bool] is kept, anything else
    goes through [int]. *)
Definition int_validator (v : json) : option Z :=
  match v with
  | JInt n => Some n
  | JBool b => Some (if b then 1 else 0)%Z
  | JStr s => Py.int_of_str 10 s
  | _ => None
  end.

(** The validator of a field type, with the error it raises. *)
Record type_ (A : Type) : Type := Type_ {
  validator : json → option A;
  type_error : error;
}.
Arguments Type_ {A}.
Arguments validator {A}.
Arguments type_error {A}.

Definition str : type_ string := Type_ str_validator StrError.
Definition int : type_ Z := Type_ int_validator IntegerError.

(** A validator of the class raises [ValueError(msg)] or returns the
    value to keep. *)
Definition class_validator (A : Type) : Type := A → string + A.

Fixpoint apply_validators {A} (loc : string) (vs : list (class_validator A)) (a : A)
    : checked A :=
  match vs with
  | [] => inr a
  | v :: vs' =>
      match v a with
      | inl msg => inl [(loc, ValueError msg)]
      | inr a' => apply_validators loc vs' a'
      end
  end.

(** [ModelField.validate] for a value that is not [None]: the validator of
    the type, then the validators of the class. *)
Definition validate {A} (t : type_ A) (vs : list (class_validator A))
    (loc : string) (v : json) : checked A :=
  match validator t v with
  | None => inl [(loc, type_error t)]
  | Some a => apply_validators loc vs a
  end.

(** [input_data.get(field.alias)], then [input_data.get(field.name)]. *)
Definition get_value (input_data : gmap string json) (alias name : string)
    : option json :=
  match input_data !! alias with
  | Some v => Some v
  | None => input_data !! name
  end.

(** A field declared without a default: [x: T] or [Field(..., alias=_)]. *)
Definition required {A} (t : type_ A) (vs : list (class_validator A))
    (input_data : gmap string json) (alias name : string) : checked A :=
  match get_value input_data alias name with
  | None => inl [(alias, MissingError)]
  | Some JNull => inl [(alias, NoneIsNotAllowedError)]
  | Some v => validate t vs alias v
  end.

(** A field [x: T = d]: the default is used as it is when the key is
    absent. *)
Definition defaulted {A} (t : type_ A) (vs : list (class_validator A))
    (d : A) (input_data : gmap string json) (alias name : string) : checked A :=
  match get_value input_data alias name with
  | None => inr d
  | Some JNull => inl [(alias, NoneIsNotAllowedError)]
  | Some v => validate t vs alias v
  end.

(** A field [x: Optional[T] = d] with no validator of the class: [None] is
    a value. *)
Definition optional {A} (t : type_ A) (d : option A)
    (input_data : gmap string json) (alias name : string) : checked (option A) :=
  match get_value input_data alias name with
  | None => inr d
  | Some JNull => inr None
  | Some v => ap (inr Some) (validate t [] alias v)
  end.

(** [BaseModel.__init__]: the values, or the [ValidationError] of the
    class. *)
Definition init {A} (model : string) (r : checked A) : Exception + A :=
  match r with
  | inl errs => inl (ValidationError model errs)
  | inr a => inr a
  end.

End pydantic.

Import pydantic.

(** * validators.py *)

Module VLESSConfig.

Record t : Type := Build {
  uuid : string;
  address : string;
  port : Z;
  protocol : string;
  encryption : string;
  flow : option string;
  tls : option string;
  sni : option string;
  alpn : option string;
  network : option string;
  path : option string;
  host : option string;
  header_type : option string;
}.

Definition validate_uuid : class_validator string := λ v,
  if uuid.UUID v then inr v else inl ("Invalid UUID format: " ++ v).

Definition validate_port : class_validator Z := λ v,
  if negb ((1 <=? v) && (v <=? 65535))%Z
  then inl ("Port must be between 1 and 65535, got " ++ Py.str_of_int v)
  else inr v.

Definition fields (data : gmap string json) : checked t :=
  inr Build
    <*> required str [validate_uuid] data "id" "uuid"
    <*> required str [] data "address" "address"
    <*> required int [validate_port] data "port" "port"
    <*> defaulted str [] "vless" data "protocol" "protocol"
    <*> defaulted str [] "none" data "encryption" "encryption"
    <*> optional str None data "flow" "flow"
    <*> optional str None data "tls" "tls"
    <*> optional str None data "sni" "sni"
    <*> optional str None data "alpn" "alpn"
    <*> optional str (Some "tcp") data "network" "network"
    <*> optional str None data "path" "path"
    <*> optional str None data "host" "host"
    <*> optional str None data "headerType" "header_type".

(** The constructor call of the class on the keys of [data]. *)
Definition new (data : gmap string json) : Exception + t :=
  init "VLESSConfig" (fields data).

End VLESSConfig.

Module VMESSConfig.

Record t : Type := Build {
  uuid : string;
  address : string;
  port : Z;
  protocol : string;
  aid : Z;
  cipher : string;
  tls : option string;
  sni : option string;
  network : option string;
  path : option string;
  host : option string;
}.

Definition validate_uuid : class_validator string := λ v,
  if uuid.UUID v then inr v else inl ("Invalid UUID format: " ++ v).

Definition validate_port : class_validator Z := λ v,
  if negb ((1 <=? v) && (v <=? 65535))%Z
  then inl ("Port must be between 1 and 65535, got " ++ Py.str_of_int v)
  else inr v.

Definition validate_aid : class_validator Z := λ v,
  if negb ((0 <=? v) && (v <=? 65535))%Z
  then inl ("AlterId must be between 0 and 65535, got " ++ Py.str_of_int v)
  else inr v.

Definition fields (data : gmap string json) : checked t :=
  inr Build
    <*> required str [validate_uuid] data "id" "uuid"
    <*> required str [] data "address" "address"
    <*> required int [validate_port] data "port" "port"
    <*> defaulted str [] "vmess" data "protocol" "protocol"
    <*> defaulted int [validate_aid] 0%Z data "aid" "aid"
    <*> defaulted str [] "auto" data "cipher" "cipher"
    <*> optional str None data "tls" "tls"
    <*> optional str None data "sni" "sni"
    <*> optional str (Some "tcp") data "network" "network"
    <*> optional str None data "path" "path"
    <*> optional str None data "host" "host".

Definition new (data : gmap string json) : Exception + t :=
  init "VMESSConfig" (fields data).

(** The class declares the eleven fields above and no [header_type], and
    keys of the input that are not fields are not stored: reading the
    attribute [header_type] of an instance raises [AttributeError]. *)
Definition header_type (self : t) : Exception + option string :=
  inl (AttributeError "'VMESSConfig' object has no attribute 'header_type'").

End VMESSConfig.

Module TROJANConfig.

Record t : Type := Build {
  password : string;
  address : string;
  port : Z;
  protocol : string;
  tls : option string;
  sni : option string;
  alpn : option string;
  network : option string;
  path : option string;
  host : option string;
}.

Definition validate_password : class_validator string := λ v,
  if (Py.len v <? 4)%Z then inl "Password must be at least 4 characters"
  else inr v.

Definition validate_port : class_validator Z := λ v,
  if negb ((1 <=? v) && (v <=? 65535))%Z
  then inl ("Port must be between 1 and 65535, got " ++ Py.str_of_int v)
  else inr v.

Definition fields (data : gmap string json) : checked t :=
  inr Build
    <*> required str [validate_password] data "password" "password"
    <*> required str [] data "address" "address"
    <*> required int [validate_port] data "port" "port"
    <*> defaulted str [] "trojan" data "protocol" "protocol"
    <*> optional str (Some "tls") data "tls" "tls"
    <*> optional str None data "sni" "sni"
    <*> optional str None data "alpn" "alpn"
    <*> optional str (Some "tcp") data "network" "network"
    <*> optional str None data "path" "path"
    <*> optional str None data "host" "host".

Definition new (data : gmap string json) : Exception + t :=
  init "TROJANConfig" (fields data).

End TROJANConfig.

Module ShadowsocksConfig.

Record t : Type := Build {
  method : string;
  password : string;
  address : string;
  port : Z;
  protocol : string;
}.

Definition valid_methods : list string :=
  [ "aes-128-gcm"; "aes-256-gcm"; "chacha20-poly1305";
    "aes-128-ctr"; "aes-192-ctr"; "aes-256-ctr";
    "aes-128-cfb"; "aes-192-cfb"; "aes-256-cfb";
    "chacha20-ietf-poly1305" ].

Definition validate_method : class_validator string := λ v,
  if negb (Py.mem v valid_methods)
  then inl ("Invalid method. Supported: " ++ Py.join ", " valid_methods)
  else inr v.

Definition validate_password : class_validator string := λ v,
  if (Py.len v <? 4)%Z then inl "Password must be at least 4 characters"
  else inr v.

Definition validate_port : class_validator Z := λ v,
  if negb ((1 <=? v) && (v <=? 65535))%Z
  then inl ("Port must be between 1 and 65535, got " ++ Py.str_of_int v)
  else inr v.

Definition fields (data : gmap string json) : checked t :=
  inr Build
    <*> required str [validate_method] data "method" "method"
    <*> required str [validate_password] data "password" "password"
    <*> required str [] data "address" "address"
    <*> required int [validate_port] data "port" "port"
    <*> defaulted str [] "ss" data "protocol" "protocol".

Definition new (data : gmap string json) : Exception + t :=
  init "ShadowsocksConfig" (fields data).

End ShadowsocksConfig.

Module Hysteria1Config.

Record t : Type := Build {
  protocol : string;
  auth_string : string;
  address : string;
  port : Z;
  tls : option string;
  sni : option string;
  alpn : option string;
  protocol_string : option string;
}.

Definition validate_port : class_validator Z := λ v,
  if negb ((1 <=? v) && (v <=? 65535))%Z
  then inl ("Port must be between 1 and 65535, got " ++ Py.str_of_int v)
  else inr v.

Definition fields (data : gmap string json) : checked t :=
  inr Build
    <*> defaulted str [] "hy" data "protocol" "protocol"
    <*> required str [] data "authString" "auth_string"
    <*> required str [] data "address" "address"
    <*> required int [validate_port] data "port" "port"
    <*> optional str (Some "tls") data "tls" "tls"
    <*> optional str None data "sni" "sni"
    <*> optional str (Some "h2") data "alpn" "alpn"
    <*> optional str None data "protocolString" "protocol_string".

Definition new (data : gmap string json) : Exception + t :=
  init "Hysteria1Config" (fields data).

End Hysteria1Config.

Module Hysteria2Config.

Record t : Type := Build {
  protocol : string;
  password : string;
  address : string;
  port : Z;
  tls : option string;
  sni : option string;
  alpn : option string;
  obfs : option string;
  obfs_password : option string;
}.

Definition validate_password : class_validator string := λ v,
  if (Py.len v <? 4)%Z then inl "Password must be at least 4 characters"
  else inr v.

Definition validate_port : class_validator Z := λ v,
  if negb ((1 <=? v) && (v <=? 65535))%Z
  then inl ("Port must be between 1 and 65535, got " ++ Py.str_of_int v)
  else inr v.

Definition fields (data : gmap string json) : checked t :=
  inr Build
    <*> defaulted str [] "hy2" data "protocol" "protocol"
    <*> required str [validate_password] data "password" "password"
    <*> required str [] data "address" "address"
    <*> required int [validate_port] data "port" "port"
    <*> optional str (Some "tls") data "tls" "tls"
    <*> optional str None data "sni" "sni"
    <*> optional str (Some "h3") data "alpn" "alpn"
    <*> optional str None data "obfs" "obfs"
    <*> optional str None data "obfsPassword" "obfs_password".

Definition new (data : gmap string json) : Exception + t :=
  init "Hysteria2Config" (fields data).

End Hysteria2Config.

(** * utils.py *)

Module StringValidator.

Definition is_hex (c : ascii) : bool := Py.between 48 57 c || Py.between 97 102 c.

(** [n] characters of [[0-9a-f]], then the rest. *)
Fixpoint hex_run (n : nat) (s : string) : option string :=
  match n with
  | O => Some s
  | S k =>
      match s with
      | String c s' => if is_hex c then hex_run k s' else None
      | EmptyString => None
      end
  end.

Definition hyphen (s : string) : option string :=
  match s with
  | String c s' => if Ascii.eqb c "-" then Some s' else None
  | EmptyString => None
  end.

(** [re.match] of the pattern of five hyphenated groups of 8, 4, 4, 4 and
    12 hexadecimal digits on the lowered string; the final [$] matches at
    the end and before one last line feed. *)
Definition is_valid_uuid (uuid_string : string) : bool :=
  match
    s ← hex_run 8 (Py.lower uuid_string); s ← hyphen s;
    s ← hex_run 4 s; s ← hyphen s;
    s ← hex_run 4 s; s ← hyphen s;
    s ← hex_run 4 s; s ← hyphen s;
    hex_run 12 s
  with
  | Some rest => String.eqb rest "" || String.eqb rest (String (Py.chr 10) "")
  | None => false
  end.

End StringValidator.

(** * v2ray_converter.py *)

Module V2RayConverter.

(** What [convert] raises.  The first three are the [ValueError]s of its
    three [raise] statements; the last is an exception of the line that
    reads the protocol, which no handler catches. *)
Inductive ConvertError : Type :=
| InvalidJSONFormat
| UnsupportedProtocol (protocol : string)
| ConfigurationValidationError (e : Exception)
| Uncaught (e : Exception).

(** [if value: params[key] = value], as the items it adds. *)
Definition item_if (key : string) (value : option string) : list (string * string) :=
  match value with
  | Some v => if Py.truthy value then [(key, v)] else []
  | None => []
  end.

Definition convert_vless (config : gmap string json) (name : string)
    : Exception + string :=
  match VLESSConfig.new config with
  | inl e => inl e
  | inr vless_config =>
      let userinfo := VLESSConfig.uuid vless_config in
      let server :=
        VLESSConfig.address vless_config ++ ":"
          ++ Py.str_of_int (VLESSConfig.port vless_config) in
      let params :=
        ([ ("encryption", VLESSConfig.encryption vless_config);
           ("type", Py.or_else (VLESSConfig.network vless_config) "tcp") ]
         ++ item_if "security" (VLESSConfig.tls vless_config)
         ++ item_if "sni" (VLESSConfig.sni vless_config)
         ++ item_if "flow" (VLESSConfig.flow vless_config)
         ++ item_if "alpn" (VLESSConfig.alpn vless_config)
         ++ item_if "path" (VLESSConfig.path vless_config)
         ++ item_if "host" (VLESSConfig.host vless_config)
         ++ item_if "headerType" (VLESSConfig.header_type vless_config))%list in
      let query_string := urllib.urlencode params in
      inr ("vless://" ++ userinfo ++ "@" ++ server ++ "?" ++ query_string
             ++ "#" ++ urllib.quote name)
  end.

Definition atom_if (key : string) (value : option string) : list (string * Json.atom) :=
  match value with
  | Some v => if Py.truthy value then [(key, Json.AStr v)] else []
  | None => []
  end.

Definition convert_vmess (config : gmap string json) (name : string)
    : Exception + string :=
  match VMESSConfig.new config with
  | inl e => inl e
  | inr vmess_config =>
      match VMESSConfig.header_type vmess_config with
      | inl e => inl e
      | inr header_type =>
          let vmess_obj :=
            ([ ("v", Json.AStr "2");
               ("ps", Json.AStr name);
               ("add", Json.AStr (VMESSConfig.address vmess_config));
               ("port", Json.AInt (VMESSConfig.port vmess_config));
               ("id", Json.AStr (VMESSConfig.uuid vmess_config));
               ("aid", Json.AInt (VMESSConfig.aid vmess_config));
               ("net", Json.AStr (Py.or_else (VMESSConfig.network vmess_config) "tcp"));
               ("type", Json.AStr (Py.or_else header_type "none"));
               ("tls", Json.AStr (Py.or_else (VMESSConfig.tls vmess_config) ""));
               ("sni", Json.AStr (Py.or_else (VMESSConfig.sni vmess_config) "")) ]
             ++ atom_if "path" (VMESSConfig.path vmess_config)
             ++ atom_if "host" (VMESSConfig.host vmess_config)
             ++ atom_if "cipher" (Some (VMESSConfig.cipher vmess_config)))%list in
          let json_str := Json.dumps vmess_obj in
          let encoded := base64.b64encode (Py.encode json_str) in
          inr ("vmess://" ++ encoded)
      end
  end.

Definition convert_trojan (config : gmap string json) (name : string)
    : Exception + string :=
  match TROJANConfig.new config with
  | inl e => inl e
  | inr trojan_config =>
      let userinfo := TROJANConfig.password trojan_config in
      let server :=
        TROJANConfig.address trojan_config ++ ":"
          ++ Py.str_of_int (TROJANConfig.port trojan_config) in
      let params :=
        ([ ("type", Py.or_else (TROJANConfig.network trojan_config) "tcp") ]
         ++ item_if "security" (TROJANConfig.tls trojan_config)
         ++ item_if "sni" (TROJANConfig.sni trojan_config)
         ++ item_if "alpn" (TROJANConfig.alpn trojan_config)
         ++ item_if "path" (TROJANConfig.path trojan_config)
         ++ item_if "host" (TROJANConfig.host trojan_config))%list in
      let query_string := urllib.urlencode params in
      inr ("trojan://" ++ userinfo ++ "@" ++ server ++ "?" ++ query_string
             ++ "#" ++ urllib.quote name)
  end.

Definition convert_shadowsocks (config : gmap string json) (name : string)
    : Exception + string :=
  match ShadowsocksConfig.new config with
  | inl e => inl e
  | inr ss_config =>
      let userinfo_plain :=
        ShadowsocksConfig.method ss_config ++ ":"
          ++ ShadowsocksConfig.password ss_config in
      let userinfo := base64.b64encode (Py.encode userinfo_plain) in
      let server :=
        ShadowsocksConfig.address ss_config ++ ":"
          ++ Py.str_of_int (ShadowsocksConfig.port ss_config) in
      inr ("ss://" ++ userinfo ++ "@" ++ server ++ "#" ++ urllib.quote name)
  end.

(** [if hy_config.tls: params["tls"] = "1"] *)
Definition flag_if (key : string) (value : option string) : list (string * string) :=
  if Py.truthy value then [(key, "1")] else [].

(** The query of a Hysteria link: absent when empty. *)
Definition with_query (uri : string) (params : list (string * string)) : string :=
  let query_string :=
    match params with
    | [] => ""
    | _ :: _ => urllib.urlencode params
    end in
  if negb (String.eqb query_string "") then uri ++ "?" ++ query_string else uri.

Definition hysteria1_params (hy_config : Hysteria1Config.t) : list (string * string) :=
  (flag_if "tls" (Hysteria1Config.tls hy_config)
   ++ item_if "sni" (Hysteria1Config.sni hy_config)
   ++ item_if "alpn" (Hysteria1Config.alpn hy_config)
   ++ item_if "protocol" (Hysteria1Config.protocol_string hy_config))%list.

Definition convert_hysteria1 (config : gmap string json) (name : string)
    : Exception + string :=
  match Hysteria1Config.new config with
  | inl e => inl e
  | inr hy_config =>
      let userinfo := urllib.quote (Hysteria1Config.auth_string hy_config) in
      let server :=
        Hysteria1Config.address hy_config ++ ":"
          ++ Py.str_of_int (Hysteria1Config.port hy_config) in
      let params := hysteria1_params hy_config in
      let uri := with_query ("hysteria://" ++ userinfo ++ "@" ++ server) params in
      inr (uri ++ "#" ++ urllib.quote name)
  end.

Definition hysteria2_params (hy2_config : Hysteria2Config.t) : list (string * string) :=
  (flag_if "tls" (Hysteria2Config.tls hy2_config)
   ++ item_if "sni" (Hysteria2Config.sni hy2_config)
   ++ item_if "alpn" (Hysteria2Config.alpn hy2_config)
   ++ item_if "obfs" (Hysteria2Config.obfs hy2_config)
   ++ item_if "obfs-password" (Hysteria2Config.obfs_password hy2_config))%list.

Definition convert_hysteria2 (config : gmap string json) (name : string)
    : Exception + string :=
  match Hysteria2Config.new config with
  | inl e => inl e
  | inr hy2_config =>
      let userinfo := urllib.quote (Hysteria2Config.password hy2_config) in
      let server :=
        Hysteria2Config.address hy2_config ++ ":"
          ++ Py.str_of_int (Hysteria2Config.port hy2_config) in
      let params := hysteria2_params hy2_config in
      let uri := with_query ("hy2://" ++ userinfo ++ "@" ++ server) params in
      inr (uri ++ "#" ++ urllib.quote name)
  end.

Definition handler : Type := gmap string json → string → Exception + string.

Definition protocol_handlers : list (string * handler) :=
  [ ("vless", convert_vless);
    ("vmess", convert_vmess);
    ("trojan", convert_trojan);
    ("ss", convert_shadowsocks);
    ("shadowsocks", convert_shadowsocks);
    ("hy", convert_hysteria1);
    ("hysteria", convert_hysteria1);
    ("hy2", convert_hysteria2);
    ("hysteria2", convert_hysteria2) ].

(** [self.protocol_handlers[protocol]], [None] when the key is absent. *)
Fixpoint lookup_handler (protocol : string) (handlers : list (string * handler))
    : option handler :=
  match handlers with
  | [] => None
  | (key, h) :: handlers' =>
      if String.eqb protocol key then Some h else lookup_handler protocol handlers'
  end.

(** The message of the second [raise]. *)
Definition unsupported_message (protocol : string) : string :=
  "Unsupported protocol: " ++ protocol ++ ". Supported: "
    ++ Py.join ", " (map fst protocol_handlers).

Definition type_name (v : json) : string :=
  match v with
  | JNull => "NoneType"
  | JBool _ => "bool"
  | JInt _ => "int"
  | JStr _ => "str"
  | JArray _ => "list"
  | JObject _ => "dict"
  end.

Definition no_attribute (v : json) (attr : string) : Exception :=
  AttributeError ("'" ++ type_name v ++ "' object has no attribute '" ++ attr ++ "'").

(** [convert] from the line that reads the protocol on, for the value
    that [json.loads] returned. *)
Definition convert_loaded (config : json) (name : string) : ConvertError + string :=
  match config with
  | JObject d =>
      match default (JStr "") (d !! "protocol") with
      | JStr p =>
          let protocol := Py.lower p in
          match lookup_handler protocol protocol_handlers with
          | None => inl (UnsupportedProtocol protocol)
          | Some handler =>
              match handler d name with
              | inr uri => inr uri
              | inl e => inl (ConfigurationValidationError e)
              end
          end
      | v => inl (Uncaught (no_attribute v "lower"))
      end
  | _ => inl (Uncaught (no_attribute config "get"))
  end.

(** [convert(json_config, name)]; [None] when the text is outside the
    model of [json.loads]. *)
Definition convert (json_config name : string) : option (ConvertError + string) :=
  match Json.loads json_config with
  | Json.NotModelled => None
  | Json.JSONDecodeError => Some (inl InvalidJSONFormat)
  | Json.Value config => Some (convert_loaded config name)
  end.

End V2RayConverter.

(** * The six schemas, side by side

    The statements below range over the classes of [validators.py]
    through one enumeration that names, for each class, its handler, its
    required fields and the input keys it reads. *)

Inductive schema : Type :=
| vless | vmess | trojan | shadowsocks | hysteria1 | hysteria2.

Definition class_name (m : schema) : string :=
  match m with
  | vless => "VLESSConfig"
  | vmess => "VMESSConfig"
  | trojan => "TROJANConfig"
  | shadowsocks => "ShadowsocksConfig"
  | hysteria1 => "Hysteria1Config"
  | hysteria2 => "Hysteria2Config"
  end.

(** The errors that validation gathers, in the order of the fields. *)
Definition errors (m : schema) (data : gmap string json) : list ErrorWrapper :=
  match m with
  | vless => errors_of (VLESSConfig.fields data)
  | vmess => errors_of (VMESSConfig.fields data)
  | trojan => errors_of (TROJANConfig.fields data)
  | shadowsocks => errors_of (ShadowsocksConfig.fields data)
  | hysteria1 => errors_of (Hysteria1Config.fields data)
  | hysteria2 => errors_of (Hysteria2Config.fields data)
  end.

(** What the constructor of the class raises, if it raises. *)
Definition raised (m : schema) (data : gmap string json) : option Exception :=
  let exn {A} (r : Exception + A) : option Exception :=
    match r with inl e => Some e | inr _ => None end in
  match m with
  | vless => exn (VLESSConfig.new data)
  | vmess => exn (VMESSConfig.new data)
  | trojan => exn (TROJANConfig.new data)
  | shadowsocks => exn (ShadowsocksConfig.new data)
  | hysteria1 => exn (Hysteria1Config.new data)
  | hysteria2 => exn (Hysteria2Config.new data)
  end.

(** The fields declared without a default, as (alias, name), in the order
    of the declarations. *)
Definition required_fields (m : schema) : list (string * string) :=
  match m with
  | vless | vmess => [("id", "uuid"); ("address", "address"); ("port", "port")]
  | trojan => [("password", "password"); ("address", "address"); ("port", "port")]
  | shadowsocks =>
      [("method", "method"); ("password", "password"); ("address", "address");
       ("port", "port")]
  | hysteria1 =>
      [("authString", "auth_string"); ("address", "address"); ("port", "port")]
  | hysteria2 => [("password", "password"); ("address", "address"); ("port", "port")]
  end.


Definition handler_of (m : schema) : V2RayConverter.handler :=
  match m with
  | vless => V2RayConverter.convert_vless
  | vmess => V2RayConverter.convert_vmess
  | trojan => V2RayConverter.convert_trojan
  | shadowsocks => V2RayConverter.convert_shadowsocks
  | hysteria1 => V2RayConverter.convert_hysteria1
  | hysteria2 => V2RayConverter.convert_hysteria2
  end.

(** The keys of [protocol_handlers] with the schema of their handler. *)
Definition registry : list (string * schema) :=
  [ ("vless", vless); ("vmess", vmess); ("trojan", trojan);
    ("ss", shadowsocks); ("shadowsocks", shadowsocks);
    ("hy", hysteria1); ("hysteria", hysteria1);
    ("hy2", hysteria2); ("hysteria2", hysteria2) ].

(** The locations of the errors that report a missing field. *)
Definition missing_locs (errs : list ErrorWrapper) : list string :=
  omap (λ e : ErrorWrapper, match e.2 with MissingError => Some e.1 | _ => None end) errs.

(** The required fields that the input gives under neither key, by
    alias. *)
Definition absent_required (m : schema) (data : gmap string json) : list string :=
  omap (λ f : string * string,
          match get_value data f.1 f.2 with None => Some f.1 | Some _ => None end)
       (required_fields m).

(** The message of the validators of the port. *)
Definition port_message (n : Z) : string :=
  "Port must be between 1 and 65535, got " ++ Py.str_of_int n.



(** ** JSON texts for the examples *)

Module Sample.

Definition quoted (s : string) : string :=
  String Json.dquote (s ++ String Json.dquote EmptyString).

(** A JSON object written from its keys and the texts of its values:
    [object [("port", "443"); ("address", quoted "a.com")]] is the text
    [{"port":443,"address":"a.com"}]. *)
Definition object (members : list (string * string)) : string :=
  "{" ++ Py.join "," (map (λ kv, quoted kv.1 ++ ":" ++ kv.2) members) ++ "}".

Definition a_uuid : string := "550e8400-e29b-41d4-a716-446655440000".

Definition minimal (m : schema) : string :=
  match m with
  | vless =>
      object [("protocol", quoted "vless"); ("uuid", quoted a_uuid);
              ("address", quoted "a.com"); ("port", "443")]
  | vmess =>
      object [("protocol", quoted "vmess"); ("uuid", quoted a_uuid);
              ("address", quoted "a.com"); ("port", "443")]
  | trojan =>
      object [("protocol", quoted "trojan"); ("password", quoted "secret");
              ("address", quoted "a.com"); ("port", "443")]
  | shadowsocks =>
      object [("protocol", quoted "shadowsocks"); ("method", quoted "aes-256-gcm");
              ("password", quoted "secret"); ("address", quoted "a.com");
              ("port", "443")]
  | hysteria1 =>
      object [("protocol", quoted "hysteria"); ("authString", quoted "secret");
              ("address", quoted "a.com"); ("port", "443")]
  | hysteria2 =>
      object [("protocol", quoted "hysteria2"); ("password", quoted "secret");
              ("address", quoted "a.com"); ("port", "443")]
  end.

End Sample.

(** * The rest of the code: definitions *)

(** The scheme token of the links of a schema. *)
Definition scheme (m : schema) : string :=
  match m with
  | vless => "vless://"
  | vmess => "vmess://"
  | trojan => "trojan://"
  | shadowsocks => "ss://"
  | hysteria1 => "hysteria://"
  | hysteria2 => "hy2://"
  end.

(** The fields of a schema that have an alias, as (alias, name). *)
Definition aliased_fields (m : schema) : list (string * string) :=
  match m with
  | vless => [("id", "uuid"); ("headerType", "header_type")]
  | vmess => [("id", "uuid")]
  | hysteria1 =>
      [("authString", "auth_string"); ("protocolString", "protocol_string")]
  | hysteria2 => [("obfsPassword", "obfs_password")]
  | trojan | shadowsocks => []
  end.

(** The query items of the VLESS, Trojan and Hysteria 2 links, as the
    handlers build them. *)
Definition vless_params (c : VLESSConfig.t) : list (string * string) :=
  ([ ("encryption", VLESSConfig.encryption c);
     ("type", Py.or_else (VLESSConfig.network c) "tcp") ]
   ++ V2RayConverter.item_if "security" (VLESSConfig.tls c)
   ++ V2RayConverter.item_if "sni" (VLESSConfig.sni c)
   ++ V2RayConverter.item_if "flow" (VLESSConfig.flow c)
   ++ V2RayConverter.item_if "alpn" (VLESSConfig.alpn c)
   ++ V2RayConverter.item_if "path" (VLESSConfig.path c)
   ++ V2RayConverter.item_if "host" (VLESSConfig.host c)
   ++ V2RayConverter.item_if "headerType" (VLESSConfig.header_type c))%list.

Definition trojan_params (c : TROJANConfig.t) : list (string * string) :=
  ([ ("type", Py.or_else (TROJANConfig.network c) "tcp") ]
   ++ V2RayConverter.item_if "security" (TROJANConfig.tls c)
   ++ V2RayConverter.item_if "sni" (TROJANConfig.sni c)
   ++ V2RayConverter.item_if "alpn" (TROJANConfig.alpn c)
   ++ V2RayConverter.item_if "path" (TROJANConfig.path c)
   ++ V2RayConverter.item_if "host" (TROJANConfig.host c))%list.



(** ** utils.py: the other methods of [StringValidator] *)

Module StringValidatorRest.

(** [is_valid_port(port)], on the values a JSON text can give: [int] and
    [bool] are instances of [int], and [True] counts as 1. *)
Definition is_valid_port (port : json) : bool :=
  match port with
  | JInt n => ((1 <=? n) && (n <=? 65535))%Z
  | JBool b => b
  | _ => false
  end.


(** [''.join(char for char in text if keep(char))] *)
Fixpoint join_if (keep : ascii → bool) (text : string) : string :=
  match text with
  | EmptyString => EmptyString
  | String c text' =>
      if keep c then String c (join_if keep text') else join_if keep text'
  end.





End StringValidatorRest.

(** ** utils.py: [ConfigAnalyzer] *)

Module ConfigAnalyzer.

(** [extract_protocol(config)]: the lowered protocol, [None] when it is
    empty; reading a protocol that is not a string raises. *)
Definition extract_protocol (config : gmap string json) : Exception + option string :=
  match default (JStr "") (config !! "protocol") with
  | JStr p =>
      let protocol := Py.lower p in
      inr (if String.eqb protocol "" then None else Some protocol)
  | v => inl (V2RayConverter.no_attribute v "lower")
  end.

Definition required_fields : list (string * list string) :=
  [ ("vless", ["protocol"; "uuid"; "address"; "port"]);
    ("vmess", ["protocol"; "uuid"; "address"; "port"]);
    ("trojan", ["protocol"; "password"; "address"; "port"]);
    ("ss", ["protocol"; "method"; "password"; "address"; "port"]);
    ("shadowsocks", ["protocol"; "method"; "password"; "address"; "port"]);
    ("hy", ["protocol"; "authString"; "address"; "port"]);
    ("hysteria", ["protocol"; "authString"; "address"; "port"]);
    ("hy2", ["protocol"; "password"; "address"; "port"]);
    ("hysteria2", ["protocol"; "password"; "address"; "port"]) ].

(** [d.get(key, [])] on the table. *)
Fixpoint get (key : string) (table : list (string * list string)) : list string :=
  match table with
  | [] => []
  | (k, v) :: table' => if String.eqb key k then v else get key table'
  end.

Definition get_required_fields (protocol : string) : list string :=
  get (Py.lower protocol) required_fields.

(** [validate_required_fields(config, protocol)]: whether nothing is
    missing, and the required keys that are not in [config]. *)
Definition validate_required_fields (config : gmap string json) (protocol : string)
    : bool * list string :=
  let required := get_required_fields protocol in
  let missing :=
    List.filter (λ field, negb (bool_decide (is_Some (config !! field)))) required in
  (Nat.eqb (length missing) 0, missing).

End ConfigAnalyzer.

(** ** utils.py: [RateLimiter]

    What [time.time()] returns, how two such values compare and how an
    [int] is subtracted from one are parameters: the float arithmetic of
    the clock is not modelled.  The clock is read where the code reads it
    and its value is passed as [now]. *)

Module RateLimiter.

Section clock.

Context {T : Type}.
Variable later : T → T → bool.
Variable minus : T → Z → T.

(** [self.user_requests] *)
Definition requests : Type := gmap Z (list T).

Definition add_request (now : T) (user_id : Z) (user_requests : requests) : requests :=
  let user_requests :=
    match user_requests !! user_id with
    | None => <[user_id:=[]]> user_requests
    | Some _ => user_requests
    end in
  alter (λ reqs, reqs ++ [now])%list user_id user_requests.

(** [is_rate_limited]: the answer and the dict it leaves. *)
Definition is_rate_limited (now : T) (user_id : Z) (max_requests time_window : Z)
    (user_requests : requests) : bool * requests :=
  let current_time := now in
  match user_requests !! user_id with
  | None => (false, user_requests)
  | Some reqs =>
      let cutoff_time := minus current_time time_window in
      let reqs' := List.filter (λ req_time, later req_time cutoff_time) reqs in
      let user_requests := <[user_id:=reqs']> user_requests in
      let is_limited := (max_requests <=? Z.of_nat (length reqs'))%Z in
      (is_limited, user_requests)
  end.

(** [cleanup_old_users]; the clock is read only when the dict is larger
    than [max_users]. *)
Definition cleanup_old_users (now : T) (max_users : Z) (user_requests : requests)
    : requests :=
  if (max_users <? Z.of_nat (size user_requests))%Z then
    let current_time := now in
    filter (λ item : Z * list T,
              existsb (λ req, later req (minus current_time 3600)) item.2 = true)
           user_requests
  else user_requests.

(** The dict of a fresh limiter after a sequence of [add_request] calls,
    given as (user, clock) in the order of the calls. *)
Definition record (events : list (Z * T)) : requests :=
  foldl (λ user_requests event, add_request event.2 event.1 user_requests) ∅ events.

(** The clock values of the calls of one user, in the order of the calls. *)
Definition requests_of (user_id : Z) (events : list (Z * T)) : list T :=
  omap (λ event : Z * T, if Z.eqb event.1 user_id then Some event.2 else None) events.

End clock.

End RateLimiter.

(** * Properties *)

Import V2RayConverter.

Lemma protocol_handlers_registry :
  protocol_handlers = map (λ km : string * schema, (km.1, handler_of km.2)) registry.
Proof. reflexivity. Qed.

Lemma lookup_handler_unique p m :
  (p, m) ∈ registry → lookup_handler p protocol_handlers = Some (handler_of m).
Proof.
  unfold registry. rewrite !elem_of_cons, elem_of_nil.
  intros H. repeat (destruct H as [[= -> ->]|H]; [reflexivity|]). destruct H.
Qed.

(** ** C1: the protocol is missing or empty *)

(** C1, as stated, fails on the empty object: [convert] raises there the
    error of its second [raise] statement, the one it raises for an
    unknown name such as [foo]; there is no separate error for a missing
    protocol. *)
Lemma convert_missing_protocol_is_unsupported :
  convert "{}" "V2Ray Server" = Some (inl (UnsupportedProtocol ""))
  ∧ convert (Sample.object [("protocol", Sample.quoted "")]) "V2Ray Server"
    = Some (inl (UnsupportedProtocol ""))
  ∧ convert (Sample.object [("protocol", Sample.quoted "foo")]) "V2Ray Server"
    = Some (inl (UnsupportedProtocol "foo")).
Proof. repeat split; vm_compute; reflexivity. Qed.

(** C1, amended: when the text parses to an object whose [protocol] is
    absent or the empty string, [convert] raises the unsupported-protocol
    error with the empty name; a text whose protocol [p] is not a key of
    the registry once lowered gets the same error with that name. *)
Theorem convert_without_protocol text d name :
  Json.loads text = Json.Value (JObject d) →
  (d !! "protocol" = None ∨ d !! "protocol" = Some (JStr "")
     → convert text name = Some (inl (UnsupportedProtocol "")))
  ∧ (∀ p, d !! "protocol" = Some (JStr p)
        → lookup_handler (Py.lower p) protocol_handlers = None
        → convert text name = Some (inl (UnsupportedProtocol (Py.lower p)))).
Proof.
  intros Hload. unfold convert. rewrite Hload. split.
  - intros [H|H]; simpl; rewrite H; reflexivity.
  - intros p Hp Hnone. unfold convert_loaded. rewrite Hp.
    cbv beta iota zeta delta [default from_option id]. rewrite Hnone. reflexivity.
Qed.

Lemma convert_without_protocol_witness :
  convert "{}" "V2Ray Server" = Some (inl (UnsupportedProtocol "")).
Proof.
  apply (convert_without_protocol "{}" ∅ "V2Ray Server").
  - vm_compute; reflexivity.
  - left. reflexivity.
Defined.

(** ** C2: the UUID validator of the schemas *)

(** C2 at 32 hexadecimal digits without hyphens: the validator of both
    schemas returns the string, [is_valid_uuid] of [utils.py] refuses it,
    and the string goes into the link as it is. *)
Theorem uuid_without_hyphens_is_accepted :
  let v := "550e8400e29b41d4a716446655440000" in
  VLESSConfig.validate_uuid v = inr v
  ∧ VMESSConfig.validate_uuid v = inr v
  ∧ StringValidator.is_valid_uuid v = false
  ∧ convert
      (Sample.object [("protocol", Sample.quoted "vless"); ("uuid", Sample.quoted v);
                      ("address", Sample.quoted "a.com"); ("port", "443")])
      "n"
    = Some (inr "vless://550e8400e29b41d4a716446655440000@a.com:443?encryption=none&type=tcp#n").
Proof. repeat split; vm_compute; reflexivity. Qed.

(** Other spellings that [uuid.UUID] takes and the pattern refuses. *)
Lemma uuid_other_spellings :
  Forall (λ v, VLESSConfig.validate_uuid v = inr v
               ∧ StringValidator.is_valid_uuid v = false)
    [ "{550e8400-e29b-41d4-a716-446655440000}";
      "urn:uuid:550e8400-e29b-41d4-a716-446655440000";
      "550e-8400e29b41d4a716-446655440000";
      "0x0e8400e29b41d4a716446655440000" ].
Proof. repeat constructor; vm_compute; reflexivity. Qed.

(** The canonical form passes both checks, and the string of the
    specification example fails both. *)
Lemma uuid_canonical_and_malformed :
  VLESSConfig.validate_uuid Sample.a_uuid = inr Sample.a_uuid
  ∧ StringValidator.is_valid_uuid Sample.a_uuid = true
  ∧ VLESSConfig.validate_uuid "not-a-uuid" = inl "Invalid UUID format: not-a-uuid"
  ∧ StringValidator.is_valid_uuid "not-a-uuid" = false.
Proof. repeat split; vm_compute; reflexivity. Qed.

(** ** C6 and C7: VMess *)

Lemma convert_vmess_raises data name : ∃ e, convert_vmess data name = inl e.
Proof.
  unfold convert_vmess. destruct (VMESSConfig.new data) as [e|c]; [by exists e|].
  unfold VMESSConfig.header_type. eauto.
Qed.

(** C6 at a valid VMess config: validation succeeds, then the handler
    reads an attribute that the class does not declare, so [convert]
    raises and there is no payload to decode.  No input gets further. *)
Theorem vmess_has_no_output :
  raised vmess
    (<["protocol":=JStr "vmess"]> (<["uuid":=JStr Sample.a_uuid]>
      (<["address":=JStr "a.com"]> (<["port":=JInt 443]> ∅)))) = None
  ∧ convert (Sample.minimal vmess) "My Server"
    = Some (inl (ConfigurationValidationError
         (AttributeError "'VMESSConfig' object has no attribute 'header_type'")))
  ∧ ∀ data name, ∃ e, convert_vmess data name = inl e.
Proof.
  split; [vm_compute; reflexivity|].
  split; [vm_compute; reflexivity|]. apply convert_vmess_raises.
Qed.

(** C7 on the six minimal objects: five convert to a link with the scheme
    of their protocol, the VMess one raises. *)
Theorem minimal_configs :
  convert (Sample.minimal vless) "n"
    = Some (inr "vless://550e8400-e29b-41d4-a716-446655440000@a.com:443?encryption=none&type=tcp#n")
  ∧ convert (Sample.minimal trojan) "n"
    = Some (inr "trojan://secret@a.com:443?type=tcp&security=tls#n")
  ∧ convert (Sample.minimal shadowsocks) "n"
    = Some (inr "ss://YWVzLTI1Ni1nY206c2VjcmV0@a.com:443#n")
  ∧ convert (Sample.minimal hysteria1) "n"
    = Some (inr "hysteria://secret@a.com:443?tls=1&alpn=h2#n")
  ∧ convert (Sample.minimal hysteria2) "n"
    = Some (inr "hy2://secret@a.com:443?tls=1&alpn=h3#n")
  ∧ convert (Sample.minimal vmess) "n"
    = Some (inl (ConfigurationValidationError
         (AttributeError "'VMESSConfig' object has no attribute 'header_type'"))).
Proof. repeat split; vm_compute; reflexivity. Qed.

(** ** Errors of a field *)

Section field_errors.
Context {A : Type}.
Implicit Types (t : type_ A) (vs : list (class_validator A)).
Implicit Types (data : gmap string json) (alias name loc : string).

Lemma errors_of_ap {B} (f : checked (A → B)) (x : checked A) :
  errors_of (f <*> x) = (errors_of f ++ errors_of x)%list.
Proof. destruct f, x; simpl; by rewrite ?app_nil_r. Qed.

Lemma apply_validators_loc loc vs a e :
  e ∈ errors_of (apply_validators loc vs a) → ∃ msg, e = (loc, ValueError msg).
Proof.
  revert a. induction vs as [|v vs IH]; intros a; simpl.
  - by intros ?%elem_of_nil.
  - destruct (v a) as [msg|a']; [|by apply IH].
    simpl. intros ->%list_elem_of_singleton. by exists msg.
Qed.

Lemma validate_loc t vs loc v e :
  e ∈ errors_of (validate t vs loc v) →
  e = (loc, type_error t) ∨ ∃ msg, e = (loc, ValueError msg).
Proof.
  unfold validate. destruct (validator t v) as [a|].
  - intros H. right. by eapply apply_validators_loc.
  - simpl. intros ->%list_elem_of_singleton. by left.
Qed.

(** Every error of a field is located at its alias. *)
Lemma required_loc t vs data alias name e :
  e ∈ errors_of (required t vs data alias name) → e.1 = alias.
Proof.
  unfold required. destruct (get_value data alias name) as [v|]; simpl.
  - destruct v; simpl;
      try (intros [->|[msg ->]]%validate_loc; reflexivity).
    by intros ->%list_elem_of_singleton.
  - by intros ->%list_elem_of_singleton.
Qed.

Lemma defaulted_loc t vs d data alias name e :
  e ∈ errors_of (defaulted t vs d data alias name) → e.1 = alias.
Proof.
  unfold defaulted. destruct (get_value data alias name) as [v|]; simpl.
  - destruct v; simpl;
      try (intros [->|[msg ->]]%validate_loc; reflexivity).
    by intros ->%list_elem_of_singleton.
  - by intros ?%elem_of_nil.
Qed.

Lemma optional_loc t d data alias name e :
  e ∈ errors_of (optional t d data alias name) → e.1 = alias.
Proof.
  unfold optional. destruct (get_value data alias name) as [v|];
    [|by intros ?%elem_of_nil].
  destruct v; try (by intros ?%elem_of_nil);
    rewrite errors_of_ap; simpl;
    intros [->|[msg ->]]%validate_loc; reflexivity.
Qed.

(** A validator of a type never reports a missing field, so the only
    missing-field error of a field is the one for its absence. *)
Lemma missing_locs_validate t vs loc v :
  type_error t ≠ MissingError →
  missing_locs (errors_of (validate t vs loc v)) = [].
Proof.
  intros Ht. unfold validate. destruct (validator t v) as [a|]; simpl.
  - revert a. induction vs as [|f vs IH]; intros a; simpl; [done|].
    destruct (f a); simpl; [done|apply IH].
  - unfold missing_locs. simpl. by destruct (type_error t).
Qed.

Lemma missing_locs_required t vs data alias name :
  type_error t ≠ MissingError →
  missing_locs (errors_of (required t vs data alias name))
  = match get_value data alias name with None => [alias] | Some _ => [] end.
Proof.
  intros Ht. unfold required. destruct (get_value data alias name) as [v|]; [|done].
  destruct v; try apply (missing_locs_validate _ _ _ _ Ht). done.
Qed.

Lemma missing_locs_defaulted t vs d data alias name :
  type_error t ≠ MissingError →
  missing_locs (errors_of (defaulted t vs d data alias name)) = [].
Proof.
  intros Ht. unfold defaulted. destruct (get_value data alias name) as [v|]; [|done].
  destruct v; try apply (missing_locs_validate _ _ _ _ Ht). done.
Qed.

Lemma missing_locs_optional t d data alias name :
  type_error t ≠ MissingError →
  missing_locs (errors_of (optional t d data alias name)) = [].
Proof.
  intros Ht. unfold optional. destruct (get_value data alias name) as [v|]; [|done].
  destruct v; try done; rewrite errors_of_ap; simpl;
    apply (missing_locs_validate _ _ _ _ Ht).
Qed.
End field_errors.

Lemma missing_locs_app errs1 errs2 :
  missing_locs (errs1 ++ errs2) = (missing_locs errs1 ++ missing_locs errs2)%list.
Proof. apply omap_app. Qed.

Lemma str_error_not_missing : type_error str ≠ MissingError.
Proof. discriminate. Qed.

Lemma int_error_not_missing : type_error int ≠ MissingError.
Proof. discriminate. Qed.

(** The constructor raises when validation gathered an error, and what it
    raises is the [ValidationError] of the class with all the errors. *)
Lemma raised_of_errors m data :
  errors m data ≠ [] →
  raised m data = Some (ValidationError (class_name m) (errors m data)).
Proof.
  destruct m; unfold raised, errors;
    [ unfold VLESSConfig.new; destruct (VLESSConfig.fields data)
    | unfold VMESSConfig.new; destruct (VMESSConfig.fields data)
    | unfold TROJANConfig.new; destruct (TROJANConfig.fields data)
    | unfold ShadowsocksConfig.new; destruct (ShadowsocksConfig.fields data)
    | unfold Hysteria1Config.new; destruct (Hysteria1Config.fields data)
    | unfold Hysteria2Config.new; destruct (Hysteria2Config.fields data) ];
    simpl; congruence.
Qed.


(** A handler raises what the constructor of its class raises. *)
Lemma handler_raised m data name e :
  raised m data = Some e → handler_of m data name = inl e.
Proof.
  destruct m; unfold raised, handler_of, convert_vless, convert_vmess, convert_trojan,
    convert_shadowsocks, convert_hysteria1, convert_hysteria2;
    [ destruct (VLESSConfig.new data)
    | destruct (VMESSConfig.new data)
    | destruct (TROJANConfig.new data)
    | destruct (ShadowsocksConfig.new data)
    | destruct (Hysteria1Config.new data)
    | destruct (Hysteria2Config.new data) ]; congruence.
Qed.

(** [convert] on a text that parses to an object with a registered
    protocol: the handler runs, and what it raises is wrapped. *)
Lemma convert_dispatch text d p m name :
  Json.loads text = Json.Value (JObject d) →
  d !! "protocol" = Some (JStr p) →
  (Py.lower p, m) ∈ registry →
  convert text name =
    Some (match handler_of m d name with
          | inr uri => inr uri
          | inl e => inl (ConfigurationValidationError e)
          end).
Proof.
  intros Hload Hp Hm. unfold convert, convert_loaded. rewrite Hload, Hp.
  cbv beta iota zeta delta [default from_option id].
  by rewrite (lookup_handler_unique _ _ Hm).
Qed.

(** ** C3: missing required fields *)

Lemma errors_missing m data :
  missing_locs (errors m data) = absent_required m data.
Proof.
  destruct m; unfold errors, absent_required,
    VLESSConfig.fields, VMESSConfig.fields, TROJANConfig.fields,
    ShadowsocksConfig.fields, Hysteria1Config.fields, Hysteria2Config.fields;
    rewrite ?errors_of_ap, ?missing_locs_app;
    rewrite ?missing_locs_required, ?missing_locs_defaulted, ?missing_locs_optional
      by (apply str_error_not_missing || apply int_error_not_missing);
    simpl;
    repeat match goal with
    | |- context [get_value ?d ?a ?n] => destruct (get_value d a n)
    end; reflexivity.
Qed.



(** The example of the specification, from the text to the error. *)
Lemma trojan_without_password :
  convert
    (Sample.object [("protocol", Sample.quoted "trojan");
                    ("address", Sample.quoted "a.com"); ("port", "443")])
    "n"
  = Some (inl (ConfigurationValidationError
       (ValidationError "TROJANConfig" [("password", MissingError)]))).
Proof. vm_compute; reflexivity. Qed.

(** ** C5: the range of the port *)

Lemma port_checked data n :
  data !! "port" = Some (JInt n) →
  required int [VLESSConfig.validate_port] data "port" "port"
  = if ((1 <=? n) && (n <=? 65535))%Z then inr n
    else inl [("port", ValueError (port_message n))].
Proof.
  intros H. unfold required, get_value. rewrite H.
  unfold validate, VLESSConfig.validate_port, port_message. simpl.
  by destruct ((1 <=? n) && (n <=? 65535))%Z.
Qed.

(** The validators of the port are the same function in the six
    classes. *)
Ltac fold_port data :=
  match goal with
  | |- context [required int [?v] data "port" "port"] =>
      change (required int [v] data "port" "port")
        with (required int [VLESSConfig.validate_port] data "port" "port")
  end.

Ltac unfold_fields :=
  unfold errors, VLESSConfig.fields, VMESSConfig.fields, TROJANConfig.fields,
    ShadowsocksConfig.fields, Hysteria1Config.fields, Hysteria2Config.fields.

Ltac wrong_loc H :=
  first [ apply required_loc in H | apply defaulted_loc in H | apply optional_loc in H ];
  simpl in H; discriminate H.

Lemma port_error_listed m data n :
  data !! "port" = Some (JInt n) → (n < 1 ∨ 65535 < n)%Z →
  ("port", ValueError (port_message n)) ∈ errors m data.
Proof.
  intros Hport Hn.
  assert (Hrange : ((1 <=? n) && (n <=? 65535))%Z = false).
  { apply andb_false_iff. rewrite Z.leb_gt, Z.leb_gt. lia. }
  destruct m; unfold_fields; fold_port data;
    rewrite (port_checked _ _ Hport), Hrange, ?errors_of_ap;
    repeat (apply elem_of_app;
            first [ right; apply list_elem_of_singleton; reflexivity | left ]).
Qed.

Lemma port_error_free m data n e :
  data !! "port" = Some (JInt n) → (1 ≤ n ≤ 65535)%Z →
  ("port", e) ∉ errors m data.
Proof.
  intros Hport Hn.
  assert (Hrange : ((1 <=? n) && (n <=? 65535))%Z = true).
  { apply andb_true_iff. rewrite !Z.leb_le. lia. }
  destruct m; unfold_fields; fold_port data;
    rewrite (port_checked _ _ Hport), Hrange, ?errors_of_ap, ?elem_of_app;
    intros H; repeat match goal with H : _ ∨ _ |- _ => destruct H as [H|H] end;
    match goal with
    | H : _ ∈ _ |- _ => simpl in H; solve [ by apply elem_of_nil in H | wrong_loc H ]
    end.
Qed.





(** The four ports of the specification on the six minimal objects:
    what is raised for 0 and for 65536 is the error of the port alone, and
    nothing is raised by validation for 1 and for 65535. *)
Lemma boundary_ports m :
  let with_port (n : Z) :=
    <["port":=JInt n]> (<["uuid":=JStr Sample.a_uuid]> (<["password":=JStr "secret"]>
      (<["method":=JStr "aes-256-gcm"]> (<["authString":=JStr "secret"]>
        (<["address":=JStr "a.com"]> ∅))))) in
  errors m (with_port 0%Z) = [("port", ValueError (port_message 0))]
  ∧ errors m (with_port 65536%Z) = [("port", ValueError (port_message 65536))]
  ∧ errors m (with_port 1%Z) = []
  ∧ errors m (with_port 65535%Z) = [].
Proof. destruct m; repeat split; vm_compute; reflexivity. Qed.

(** ** C9: keys that no field reads *)

Section unread_key.
Context {A : Type} (t : type_ A) (vs : list (class_validator A)).
Context (data : gmap string json) (k : string) (v : json) (alias name : string).
Hypothesis (Halias : k ≠ alias) (Hname : k ≠ name).

Lemma get_value_insert_ne :
  get_value (<[k:=v]> data) alias name = get_value data alias name.
Proof. unfold get_value. by rewrite !lookup_insert_ne. Qed.

Lemma required_insert_ne :
  required t vs (<[k:=v]> data) alias name = required t vs data alias name.
Proof. unfold required. by rewrite get_value_insert_ne. Qed.

Lemma defaulted_insert_ne d :
  defaulted t vs d (<[k:=v]> data) alias name = defaulted t vs d data alias name.
Proof. unfold defaulted. by rewrite get_value_insert_ne. Qed.

Lemma optional_insert_ne d :
  optional t d (<[k:=v]> data) alias name = optional t d data alias name.
Proof. unfold optional. by rewrite get_value_insert_ne. Qed.
End unread_key.


Ltac unfold_handlers :=
  unfold handler_of, convert_vless, convert_vmess, convert_trojan,
    convert_shadowsocks, convert_hysteria1, convert_hysteria2,
    VLESSConfig.new, VMESSConfig.new, TROJANConfig.new, ShadowsocksConfig.new,
    Hysteria1Config.new, Hysteria2Config.new,
    VLESSConfig.fields, VMESSConfig.fields, TROJANConfig.fields,
    ShadowsocksConfig.fields, Hysteria1Config.fields, Hysteria2Config.fields.





(** ** C10: a port given as a numeric string *)












(** Numeric strings on the minimal objects of the six protocols: the port
    443 as a string gives what the integer gives. *)
Lemma string_ports m :
  let with_port (port : json) : gmap string json :=
    <["port":=port]> (<["uuid":=JStr Sample.a_uuid]> (<["password":=JStr "secret"]>
      (<["method":=JStr "aes-256-gcm"]> (<["authString":=JStr "secret"]>
        (<["address":=JStr "a.com"]> ∅))))) in
  handler_of m (with_port (JStr "443")) "n" = handler_of m (with_port (JInt 443)) "n"
  ∧ errors m (with_port (JStr "443")) = []
  ∧ errors m (with_port (JStr "65536"))
    = [("port", ValueError (port_message 65536))]
  ∧ errors m (with_port (JStr "4 43")) = [("port", IntegerError)].
Proof. destruct m; repeat split; vm_compute; reflexivity. Qed.

(** ** C8: the two names of Shadowsocks *)

Lemma append_assoc (s1 s2 s3 : string) : (s1 ++ s2) ++ s3 = s1 ++ s2 ++ s3.
Proof.
  induction s1 as [|c s1 IH]; [reflexivity|].
  change (String c ((s1 ++ s2) ++ s3) = String c (s1 ++ s2 ++ s3)). by rewrite IH.
Qed.

Lemma protocol_given data p d :
  defaulted str [] d (<["protocol":=JStr p]> data) "protocol" "protocol" = inr p.
Proof. unfold defaulted, get_value. by rewrite lookup_insert_eq. Qed.




(** ** C4: the link of Hysteria 1 *)

Lemma append_nonempty_r (s1 s2 : string) : s2 ≠ "" → s1 ++ s2 ≠ "".
Proof. destruct s1; [done|discriminate]. Qed.

Lemma append_nonempty_l (s1 s2 : string) : s1 ≠ "" → s1 ++ s2 ≠ "".
Proof. destruct s1; [done|discriminate]. Qed.

(** The query of a dict that is not empty is not the empty string. *)
Lemma urlencode_nonempty kv params : urllib.urlencode (kv :: params) ≠ "".
Proof.
  unfold urllib.urlencode, Py.join. cbn [map String.concat].
  assert (H : urllib.quote_plus kv.1 ++ "=" ++ urllib.quote_plus kv.2 ≠ "").
  { apply append_nonempty_r. discriminate. }
  destruct (map _ params); [done|]. by apply append_nonempty_l.
Qed.

Lemma with_query_empty uri : with_query uri [] = uri.
Proof. reflexivity. Qed.

Lemma with_query_nonempty uri kv params :
  with_query uri (kv :: params) = uri ++ "?" ++ urllib.urlencode (kv :: params).
Proof.
  unfold with_query.
  destruct (String.eqb_spec (urllib.urlencode (kv :: params)) "") as [H|H]; [|done].
  by apply urlencode_nonempty in H.
Qed.

Lemma item_if_elem key value k v :
  (k, v) ∈ item_if key value ↔ k = key ∧ value = Some v ∧ v ≠ "".
Proof.
  unfold item_if, Py.truthy. destruct value as [s|].
  - destruct (String.eqb_spec s "") as [->|Hs]; simpl.
    + rewrite elem_of_nil. split; [done|]. by intros (_ & [= ->] & ?).
    + rewrite list_elem_of_singleton. split.
      * by intros [= -> ->].
      * by intros (-> & [= ->] & _).
  - rewrite elem_of_nil. split; [done|]. by intros (_ & ? & _).
Qed.

Lemma flag_if_elem key value k v :
  (k, v) ∈ flag_if key value ↔ k = key ∧ v = "1" ∧ Py.truthy value = true.
Proof.
  unfold flag_if. destruct (Py.truthy value).
  - rewrite list_elem_of_singleton. split; [by intros [= -> ->]|by intros (-> & -> & _)].
  - rewrite elem_of_nil. split; [done|]. by intros (_ & _ & ?).
Qed.

Lemma item_if_nil key value : Py.truthy value = false → item_if key value = [].
Proof. unfold item_if. destruct value; [|done]. by intros ->. Qed.

Lemma flag_if_nil key value : Py.truthy value = false → flag_if key value = [].
Proof. unfold flag_if. by intros ->. Qed.

Lemma item_if_nil_inv key value : item_if key value = [] → Py.truthy value = false.
Proof. unfold item_if. destruct value as [s|]; [|done]. by destruct (Py.truthy (Some s)). Qed.

Lemma flag_if_nil_inv key value : flag_if key value = [] → Py.truthy value = false.
Proof. unfold flag_if. by destruct (Py.truthy value). Qed.

(** A validated port is in range. *)
Lemma validated_port data n :
  required int [Hysteria1Config.validate_port] data "port" "port" = inr n →
  (1 ≤ n ≤ 65535)%Z.
Proof.
  unfold required. destruct (get_value data "port" "port") as [v|]; [|done].
  assert (H : ∀ z, apply_validators "port" [Hysteria1Config.validate_port] z = inr n →
                   (1 ≤ n ≤ 65535)%Z).
  { intros z. cbn. unfold Hysteria1Config.validate_port.
    destruct ((1 <=? z) && (z <=? 65535))%Z eqn:Hz; [|done].
    cbn. intros [= <-]. apply andb_true_iff in Hz. rewrite !Z.leb_le in Hz. lia. }
  destruct v; try done; unfold validate; cbn [validator int int_validator];
    try apply H.
  destruct (Py.int_of_str 10 s); [apply H|done].
Qed.

(** The fields of a validated Hysteria 1 config that the link uses. *)
Lemma hysteria1_port data hy_config :
  Hysteria1Config.new data = inr hy_config →
  (1 ≤ Hysteria1Config.port hy_config ≤ 65535)%Z.
Proof.
  unfold Hysteria1Config.new, Hysteria1Config.fields.
  destruct (defaulted str [] "hy" data "protocol" "protocol"),
    (required str [] data "authString" "auth_string"),
    (required str [] data "address" "address"),
    (required int [Hysteria1Config.validate_port] data "port" "port") eqn:Hport,
    (optional str (Some "tls") data "tls" "tls"),
    (optional str None data "sni" "sni"),
    (optional str (Some "h2") data "alpn" "alpn"),
    (optional str None data "protocolString" "protocol_string");
    try discriminate.
  cbn. intros [= <-]. cbn. by apply (validated_port data).
Qed.

(** C4: for a validated Hysteria 1 config, with
    [base = hysteria://{quoted auth_string}@{address}:{port}] and a port
    between 1 and 65535: the link is [base#{quoted name}], with no question
    mark, when [tls], [sni], [alpn] and [protocol_string] are all [None]
    or empty, and [base?{query}#{quoted name}] otherwise, where the query
    encodes exactly these items: [tls=1] when [tls] is true, and [sni],
    [alpn] and [protocol] with the values of [sni], [alpn] and
    [protocol_string] when they are not empty. *)
Theorem hysteria1_link data hy_config name :
  Hysteria1Config.new data = inr hy_config →
  let tls := Hysteria1Config.tls hy_config in
  let sni := Hysteria1Config.sni hy_config in
  let alpn := Hysteria1Config.alpn hy_config in
  let protocol_string := Hysteria1Config.protocol_string hy_config in
  let base :=
    "hysteria://" ++ urllib.quote (Hysteria1Config.auth_string hy_config)
      ++ "@" ++ Hysteria1Config.address hy_config
      ++ ":" ++ Py.str_of_int (Hysteria1Config.port hy_config) in
  let params := hysteria1_params hy_config in
  (1 ≤ Hysteria1Config.port hy_config ≤ 65535)%Z
  ∧ (∀ k v, (k, v) ∈ params ↔
        (k = "tls" ∧ v = "1" ∧ Py.truthy tls = true)
        ∨ (k = "sni" ∧ sni = Some v ∧ v ≠ "")
        ∨ (k = "alpn" ∧ alpn = Some v ∧ v ≠ "")
        ∨ (k = "protocol" ∧ protocol_string = Some v ∧ v ≠ ""))
  ∧ (Py.truthy tls || Py.truthy sni || Py.truthy alpn || Py.truthy protocol_string = false →
       convert_hysteria1 data name = inr (base ++ "#" ++ urllib.quote name))
  ∧ (Py.truthy tls || Py.truthy sni || Py.truthy alpn || Py.truthy protocol_string = true →
       convert_hysteria1 data name
       = inr (base ++ "?" ++ urllib.urlencode params ++ "#" ++ urllib.quote name)).
Proof.
  intros Hnew tls sni alpn protocol_string base params.
  split; [by apply (hysteria1_port data)|].
  split.
  { intros k v. unfold params, hysteria1_params.
    rewrite !elem_of_app, flag_if_elem, !item_if_elem. tauto. }
  unfold convert_hysteria1. rewrite Hnew. fold params.
  split; intros Htruthy.
  - apply orb_false_iff in Htruthy as [[[Ht Hs]%orb_false_iff Ha]%orb_false_iff Hp].
    assert (Hnil : params = []).
    { unfold params, hysteria1_params.
      by rewrite (flag_if_nil _ _ Ht), (item_if_nil _ _ Hs), (item_if_nil _ _ Ha),
        (item_if_nil _ _ Hp). }
    rewrite Hnil, with_query_empty. unfold base. by rewrite !append_assoc.
  - destruct params as [|kv params'] eqn:Hparams.
    + exfalso. unfold params, hysteria1_params in Hparams.
      apply app_eq_nil in Hparams as [Ht [Hs [Ha Hp]%app_eq_nil]%app_eq_nil].
      apply flag_if_nil_inv in Ht. apply item_if_nil_inv in Hs, Ha, Hp.
      unfold tls, sni, alpn, protocol_string in Htruthy.
      by rewrite Ht, Hs, Ha, Hp in Htruthy.
    + rewrite with_query_nonempty. unfold base. by rewrite !append_assoc.
Qed.

Lemma hysteria1_link_witness :
  let minimal : gmap string json :=
    <["protocol":=JStr "hysteria"]> (<["authString":=JStr "pass word"]>
      (<["address":=JStr "a.com"]> (<["port":=JInt 443]> ∅))) in
  let bare := <["tls":=JNull]> (<["alpn":=JNull]> minimal) in
  convert_hysteria1 minimal "n" = inr "hysteria://pass%20word@a.com:443?tls=1&alpn=h2#n"
  ∧ convert_hysteria1 bare "n" = inr "hysteria://pass%20word@a.com:443#n".
Proof.
  intros minimal bare. split.
  - pose proof (hysteria1_link minimal
      (Hysteria1Config.Build "hysteria" "pass word" "a.com" 443 (Some "tls") None
         (Some "h2") None) "n") as H.
    destruct H as (_ & _ & _ & H); [vm_compute; reflexivity|].
    rewrite H; vm_compute; reflexivity.
  - pose proof (hysteria1_link bare
      (Hysteria1Config.Build "hysteria" "pass word" "a.com" 443 None None None None)
      "n") as H.
    destruct H as (_ & _ & H & _); [vm_compute; reflexivity|].
    rewrite H; vm_compute; reflexivity.
Defined.

(** ** Minimal configs of the five protocols that convert

    For every valid choice of the required values, not only for the
    samples of [minimal_configs]. *)

(** Lookups in a dict written as a chain of insertions. *)
Ltac eval_lookups :=
  repeat first
    [ rewrite lookup_insert_eq
    | rewrite lookup_insert_ne by discriminate
    | rewrite lookup_empty ].

Ltac eval_handler :=
  unfold_handlers; unfold required, defaulted, optional, get_value, validate;
  eval_lookups; cbn [validator str int str_validator int_validator apply_validators].

(** The link, once the validators have been decided. *)
Ltac eval_link :=
  cbn -[String.append urllib.urlencode urllib.quote Py.str_of_int
        base64.b64encode Py.encode with_query];
  rewrite ?append_assoc;
  repeat match goal with
  | |- context [urllib.urlencode ?l] =>
      let r := eval vm_compute in (urllib.urlencode l) in
      change (urllib.urlencode l) with r
  end;
  reflexivity.

Lemma port_valid n : (1 ≤ n ≤ 65535)%Z → negb ((1 <=? n) && (n <=? 65535))%Z = false.
Proof.
  intros Hn. apply negb_false_iff, andb_true_iff. rewrite !Z.leb_le. lia.
Qed.

Lemma password_valid v : (4 ≤ Py.len v)%Z → (Py.len v <? 4)%Z = false.
Proof. intros Hv. apply Z.ltb_ge. lia. Qed.

Lemma minimal_vless uuid_ address port name :
  uuid.UUID uuid_ = true → (1 ≤ port ≤ 65535)%Z →
  convert_vless
    (<["protocol":=JStr "vless"]> (<["uuid":=JStr uuid_]>
      (<["address":=JStr address]> (<["port":=JInt port]> ∅)))) name
  = inr ("vless://" ++ uuid_ ++ "@" ++ address ++ ":" ++ Py.str_of_int port
           ++ "?encryption=none&type=tcp#" ++ urllib.quote name).
Proof.
  intros Hu Hp. eval_handler.
  unfold VLESSConfig.validate_uuid, VLESSConfig.validate_port.
  rewrite Hu, (port_valid _ Hp). eval_link.
Qed.

Lemma minimal_trojan password address port name :
  (4 ≤ Py.len password)%Z → (1 ≤ port ≤ 65535)%Z →
  convert_trojan
    (<["protocol":=JStr "trojan"]> (<["password":=JStr password]>
      (<["address":=JStr address]> (<["port":=JInt port]> ∅)))) name
  = inr ("trojan://" ++ password ++ "@" ++ address ++ ":" ++ Py.str_of_int port
           ++ "?type=tcp&security=tls#" ++ urllib.quote name).
Proof.
  intros Hw Hp. eval_handler.
  unfold TROJANConfig.validate_password, TROJANConfig.validate_port.
  rewrite (password_valid _ Hw), (port_valid _ Hp). eval_link.
Qed.

Lemma minimal_shadowsocks method password address port name :
  Py.mem method ShadowsocksConfig.valid_methods = true →
  (4 ≤ Py.len password)%Z → (1 ≤ port ≤ 65535)%Z →
  convert_shadowsocks
    (<["protocol":=JStr "shadowsocks"]> (<["method":=JStr method]>
      (<["password":=JStr password]> (<["address":=JStr address]>
        (<["port":=JInt port]> ∅))))) name
  = inr ("ss://" ++ base64.b64encode (Py.encode (method ++ ":" ++ password))
           ++ "@" ++ address ++ ":" ++ Py.str_of_int port ++ "#" ++ urllib.quote name).
Proof.
  intros Hm Hw Hp. eval_handler.
  unfold ShadowsocksConfig.validate_method, ShadowsocksConfig.validate_password,
    ShadowsocksConfig.validate_port.
  rewrite Hm, (password_valid _ Hw), (port_valid _ Hp). eval_link.
Qed.

Lemma minimal_hysteria1 auth_string address port name :
  (1 ≤ port ≤ 65535)%Z →
  convert_hysteria1
    (<["protocol":=JStr "hysteria"]> (<["authString":=JStr auth_string]>
      (<["address":=JStr address]> (<["port":=JInt port]> ∅)))) name
  = inr ("hysteria://" ++ urllib.quote auth_string ++ "@" ++ address ++ ":"
           ++ Py.str_of_int port ++ "?tls=1&alpn=h2#" ++ urllib.quote name).
Proof.
  intros Hp. eval_handler. unfold Hysteria1Config.validate_port.
  rewrite (port_valid _ Hp). cbn -[String.append urllib.urlencode with_query].
  rewrite with_query_nonempty. eval_link.
Qed.

Lemma minimal_hysteria2 password address port name :
  (4 ≤ Py.len password)%Z → (1 ≤ port ≤ 65535)%Z →
  convert_hysteria2
    (<["protocol":=JStr "hysteria2"]> (<["password":=JStr password]>
      (<["address":=JStr address]> (<["port":=JInt port]> ∅)))) name
  = inr ("hy2://" ++ urllib.quote password ++ "@" ++ address ++ ":"
           ++ Py.str_of_int port ++ "?tls=1&alpn=h3#" ++ urllib.quote name).
Proof.
  intros Hw Hp. eval_handler.
  unfold Hysteria2Config.validate_password, Hysteria2Config.validate_port.
  rewrite (password_valid _ Hw), (port_valid _ Hp).
  cbn -[String.append urllib.urlencode with_query].
  rewrite with_query_nonempty. eval_link.
Qed.

(** * Further properties of the converter *)

Lemma lookup_handler_inv p h :
  lookup_handler p protocol_handlers = Some h →
  ∃ m, (p, m) ∈ registry ∧ h = handler_of m.
Proof.
  rewrite protocol_handlers_registry.
  induction registry as [|[k m] l IH]; simpl; [discriminate|].
  destruct (String.eqb_spec p k) as [->|Hne].
  - intros [= <-]. exists m. split; [left|reflexivity].
  - intros H. destruct (IH H) as (m' & Hin & ->).
    exists m'. split; [by right|reflexivity].
Qed.

Lemma prefix_append (s x : string) : String.prefix s (s ++ x) = true.
Proof.
  induction s as [|c s IH]; [by destruct x|].
  change (String.prefix (String c s) (String c (s ++ x)) = true).
  cbn. destruct (Ascii.ascii_dec c c); [exact IH|done].
Qed.

Lemma prefix_weaken (s u x : string) :
  String.prefix s u = true → String.prefix s (u ++ x) = true.
Proof.
  revert u. induction s as [|c s IH]; intros u; [by destruct (u ++ x)|].
  destruct u as [|d u]; [discriminate|].
  change (String.prefix (String c s) (String d u) = true →
          String.prefix (String c s) (String d (u ++ x)) = true).
  cbn. destruct (Ascii.ascii_dec c d); [apply IH|done].
Qed.

Lemma with_query_prefix s uri params :
  String.prefix s uri = true → String.prefix s (with_query uri params) = true.
Proof.
  intros H. destruct params as [|kv params]; [done|].
  rewrite with_query_nonempty. by apply prefix_weaken.
Qed.

(** A handler that returns starts its link with the scheme of its
    schema; the VMess handler never returns. *)
Lemma handler_scheme m data name uri :
  handler_of m data name = inr uri →
  m ≠ vmess ∧ String.prefix (scheme m) uri = true.
Proof.
  destruct m; cbn [handler_of scheme].
  - unfold convert_vless. destruct (VLESSConfig.new data); [done|].
    intros [= <-]. split; [done|apply prefix_append].
  - intros H. destruct (convert_vmess_raises data name) as [e He]. congruence.
  - unfold convert_trojan. destruct (TROJANConfig.new data); [done|].
    intros [= <-]. split; [done|apply prefix_append].
  - unfold convert_shadowsocks. destruct (ShadowsocksConfig.new data); [done|].
    intros [= <-]. split; [done|apply prefix_append].
  - unfold convert_hysteria1. destruct (Hysteria1Config.new data); [done|].
    intros [= <-]. split; [done|].
    apply prefix_weaken, with_query_prefix, prefix_append.
  - unfold convert_hysteria2. destruct (Hysteria2Config.new data); [done|].
    intros [= <-]. split; [done|].
    apply prefix_weaken, with_query_prefix, prefix_append.
Qed.

(** What a returned link tells about the input. *)
Lemma convert_link_inv text name uri :
  convert text name = Some (inr uri) →
  ∃ d p m,
    Json.loads text = Json.Value (JObject d)
    ∧ d !! "protocol" = Some (JStr p)
    ∧ (Py.lower p, m) ∈ registry
    ∧ handler_of m d name = inr uri.
Proof.
  unfold convert. destruct (Json.loads text) as [v| |]; [|done..].
  destruct v as [| | | | |d]; try done. unfold convert_loaded.
  destruct (d !! "protocol") as [v|] eqn:Hp; cbv beta iota zeta delta [default from_option id].
  - destruct v as [| | |p| |]; try done.
    destruct (lookup_handler (Py.lower p) protocol_handlers) as [h|] eqn:Hh; [|done].
    apply lookup_handler_inv in Hh as (m & Hm & ->).
    destruct (handler_of m d name) as [e|u] eqn:Hu; [done|].
    intros [= <-]. by exists d, p, m.
  - done.
Qed.

(** X1: whenever [convert] returns a link, the text is a JSON object whose
    protocol is a string that lowers to a registered name of a schema
    other than VMess, and the link starts with the scheme token of that
    schema. *)
Theorem link_starts_with_scheme text name uri :
  convert text name = Some (inr uri) →
  ∃ d p m,
    Json.loads text = Json.Value (JObject d)
    ∧ d !! "protocol" = Some (JStr p)
    ∧ (Py.lower p, m) ∈ registry
    ∧ m ≠ vmess
    ∧ String.prefix (scheme m) uri = true.
Proof.
  intros (d & p & m & Hload & Hp & Hm & Hh)%convert_link_inv.
  apply handler_scheme in Hh as [Hv Hs]. by exists d, p, m.
Qed.

Lemma link_starts_with_scheme_witness :
  ∃ d p m,
    Json.loads (Sample.minimal hysteria2) = Json.Value (JObject d)
    ∧ d !! "protocol" = Some (JStr p)
    ∧ (Py.lower p, m) ∈ registry
    ∧ m ≠ vmess
    ∧ String.prefix (scheme m) "hy2://secret@a.com:443?tls=1&alpn=h3#n" = true.
Proof.
  apply (link_starts_with_scheme (Sample.minimal hysteria2) "n").
  vm_compute; reflexivity.
Defined.

(** ** What a validated config satisfies *)

Lemma ap_inr {A B} (f : checked (A → B)) (x : checked A) (b : B) :
  f <*> x = inr b → ∃ g a, f = inr g ∧ x = inr a ∧ b = g a.
Proof. destruct f as [?|g], x as [?|a]; try done. intros [= <-]. by exists g, a. Qed.

Lemma init_inr {A} model (r : checked A) (a : A) : init model r = inr a → r = inr a.
Proof. destruct r; [done|]. by intros [= ->]. Qed.

Lemma required_inr {A} (t : type_ A) f data alias name (a : A) :
  required t [f] data alias name = inr a → ∃ a0, f a0 = inr a.
Proof.
  unfold required. destruct (get_value data alias name) as [v|]; [|done].
  assert (H : validate t [f] alias v = inr a → ∃ a0, f a0 = inr a).
  { unfold validate. destruct (validator t v) as [a0|]; [|done].
    cbn. destruct (f a0) as [?|a1] eqn:Hf; [done|]. intros [= <-]. by exists a0. }
  by destruct v.
Qed.

Lemma defaulted_inr {A} (t : type_ A) f d data alias name (a : A) :
  defaulted t [f] d data alias name = inr a → a = d ∨ ∃ a0, f a0 = inr a.
Proof.
  unfold defaulted. destruct (get_value data alias name) as [v|];
    [|intros [= <-]; by left].
  assert (H : validate t [f] alias v = inr a → ∃ a0, f a0 = inr a).
  { unfold validate. destruct (validator t v) as [a0|]; [|done].
    cbn. destruct (f a0) as [?|a1] eqn:Hf; [done|]. intros [= <-]. by exists a0. }
  destruct v; try done; intros ?%H; by right.
Qed.

Lemma validate_port_inr z n :
  VLESSConfig.validate_port z = inr n → (1 ≤ n ≤ 65535)%Z.
Proof.
  unfold VLESSConfig.validate_port.
  destruct ((1 <=? z) && (z <=? 65535))%Z eqn:Hz; [|done].
  cbn. intros [= <-]. apply andb_true_iff in Hz. rewrite !Z.leb_le in Hz. lia.
Qed.

Lemma validate_aid_inr z n :
  VMESSConfig.validate_aid z = inr n → (0 ≤ n ≤ 65535)%Z.
Proof.
  unfold VMESSConfig.validate_aid.
  destruct ((0 <=? z) && (z <=? 65535))%Z eqn:Hz; [|done].
  cbn. intros [= <-]. apply andb_true_iff in Hz. rewrite !Z.leb_le in Hz. lia.
Qed.

Lemma validate_uuid_inr v u : VLESSConfig.validate_uuid v = inr u → uuid.UUID u = true.
Proof.
  unfold VLESSConfig.validate_uuid. destruct (uuid.UUID v) eqn:Hv; [|done].
  by intros [= <-].
Qed.

Lemma validate_password_inr v w :
  TROJANConfig.validate_password v = inr w → (4 ≤ Py.len w)%Z.
Proof.
  unfold TROJANConfig.validate_password. destruct (Py.len v <? 4)%Z eqn:Hv; [done|].
  intros [= <-]. by apply Z.ltb_ge.
Qed.

Lemma validate_method_inr v w :
  ShadowsocksConfig.validate_method v = inr w →
  Py.mem w ShadowsocksConfig.valid_methods = true.
Proof.
  unfold ShadowsocksConfig.validate_method.
  destruct (Py.mem v ShadowsocksConfig.valid_methods) eqn:Hv; [|done].
  by intros [= <-].
Qed.

(** The fields of a constructed instance, from the last one to the
    first. *)
Ltac invert_fields H :=
  apply init_inr in H;
  repeat match type of H with
  | _ <*> _ = inr _ =>
      let g := fresh "g" in
      let Hx := fresh "Hfield" in
      apply ap_inr in H as (g & ? & H & Hx & ->)
  end;
  injection H as <-.

(** X2: an instance of a schema class exists only with valid fields: a
    port between 1 and 65535 in every class, a UUID that [uuid.UUID]
    accepts (VLESS, VMess), an alterId between 0 and 65535 (VMess), a
    password of at least four characters (Trojan, Shadowsocks,
    Hysteria 2) and a method of the allow-list (Shadowsocks). *)
Theorem validated_fields :
  (∀ data c, VLESSConfig.new data = inr c →
     uuid.UUID (VLESSConfig.uuid c) = true ∧ (1 ≤ VLESSConfig.port c ≤ 65535)%Z)
  ∧ (∀ data c, VMESSConfig.new data = inr c →
       uuid.UUID (VMESSConfig.uuid c) = true ∧ (1 ≤ VMESSConfig.port c ≤ 65535)%Z
       ∧ (0 ≤ VMESSConfig.aid c ≤ 65535)%Z)
  ∧ (∀ data c, TROJANConfig.new data = inr c →
       (4 ≤ Py.len (TROJANConfig.password c))%Z
       ∧ (1 ≤ TROJANConfig.port c ≤ 65535)%Z)
  ∧ (∀ data c, ShadowsocksConfig.new data = inr c →
       Py.mem (ShadowsocksConfig.method c) ShadowsocksConfig.valid_methods = true
       ∧ (4 ≤ Py.len (ShadowsocksConfig.password c))%Z
       ∧ (1 ≤ ShadowsocksConfig.port c ≤ 65535)%Z)
  ∧ (∀ data c, Hysteria1Config.new data = inr c →
       (1 ≤ Hysteria1Config.port c ≤ 65535)%Z)
  ∧ (∀ data c, Hysteria2Config.new data = inr c →
       (4 ≤ Py.len (Hysteria2Config.password c))%Z
       ∧ (1 ≤ Hysteria2Config.port c ≤ 65535)%Z).
Proof.
  split; [|split; [|split; [|split; [|split]]]]; intros data c H;
    [ unfold VLESSConfig.new, VLESSConfig.fields in H
    | unfold VMESSConfig.new, VMESSConfig.fields in H
    | unfold TROJANConfig.new, TROJANConfig.fields in H
    | unfold ShadowsocksConfig.new, ShadowsocksConfig.fields in H
    | unfold Hysteria1Config.new, Hysteria1Config.fields in H
    | unfold Hysteria2Config.new, Hysteria2Config.fields in H ];
    invert_fields H; cbn;
    repeat match goal with
    | Hf : required _ [_] _ _ _ = inr _ |- _ => apply required_inr in Hf as [? Hf]
    | Hf : defaulted int [_] _ _ _ _ = inr _ |- _ => apply defaulted_inr in Hf as [->|[? Hf]]
    end;
    repeat split;
    first [ by eapply validate_port_inr
          | by eapply validate_uuid_inr
          | by eapply validate_password_inr
          | by eapply validate_method_inr
          | by eapply validate_aid_inr
          | lia ].
Qed.

Lemma validated_fields_witness :
  (4 ≤ Py.len "secret")%Z ∧ (1 ≤ 443 ≤ 65535)%Z.
Proof.
  apply (proj1 (proj2 (proj2 validated_fields))
           (<["password":=JStr "secret"]> (<["address":=JStr "a.com"]>
             (<["port":=JStr "443"]> ∅)))
           (TROJANConfig.Build "secret" "a.com" 443 "trojan" (Some "tls") None None
              (Some "tcp") None None)).
  vm_compute; reflexivity.
Defined.

(** ** The spelling of the protocol *)

Lemma ap_inl {A B} errs (x : checked A) :
  (inl errs : checked (A → B)) <*> x = inl (errs ++ errors_of x)%list.
Proof. destruct x; cbn; by rewrite ?app_nil_r. Qed.

Lemma ap_inr_inl {A B} (g : A → B) errs : inr g <*> inl errs = inl errs.
Proof. reflexivity. Qed.

Lemma ap_inr_inr {A B} (g : A → B) (a : A) : inr g <*> inr a = inr (g a).
Proof. reflexivity. Qed.

(** The fields one after the other: at the first that fails, what follows
    only adds its errors. *)
Ltac step_fields :=
  repeat match goal with
  | |- context [ap (inr ?g) ?x] =>
      lazymatch x with
      | inr _ => rewrite !ap_inr_inr
      | _ => destruct x; [rewrite !ap_inr_inl, ?ap_inl; reflexivity|rewrite !ap_inr_inr]
      end
  end.

(** No handler uses the value of the protocol field. *)
Lemma handler_protocol m data p1 p2 name :
  handler_of m (<["protocol":=JStr p1]> data) name
  = handler_of m (<["protocol":=JStr p2]> data) name.
Proof.
  destruct m; unfold_handlers; rewrite !protocol_given;
    rewrite ?required_insert_ne, ?defaulted_insert_ne, ?optional_insert_ne by discriminate;
    step_fields; reflexivity.
Qed.

(** X3: two texts that parse to the same object but for the protocol,
    written in each as any name of the same schema in any case ([hy],
    [Hysteria], [HY2], ...), convert to the same result. *)
Theorem protocol_spelling_irrelevant text1 text2 d p1 p2 m name :
  Json.loads text1 = Json.Value (JObject (<["protocol":=JStr p1]> d)) →
  Json.loads text2 = Json.Value (JObject (<["protocol":=JStr p2]> d)) →
  (Py.lower p1, m) ∈ registry →
  (Py.lower p2, m) ∈ registry →
  convert text1 name = convert text2 name.
Proof.
  intros Hload1 Hload2 Hp1 Hp2.
  rewrite (convert_dispatch text1 _ p1 m name Hload1 (lookup_insert_eq _ _ _) Hp1).
  rewrite (convert_dispatch text2 _ p2 m name Hload2 (lookup_insert_eq _ _ _) Hp2).
  by rewrite (handler_protocol m d p1 p2 name).
Qed.

Lemma protocol_spelling_irrelevant_witness :
  convert
    (Sample.object [("protocol", Sample.quoted "HY"); ("authString", Sample.quoted "secret");
                    ("address", Sample.quoted "a.com"); ("port", "443")]) "n"
  = convert (Sample.minimal hysteria1) "n".
Proof.
  apply (protocol_spelling_irrelevant _ _
           (<["authString":=JStr "secret"]> (<["address":=JStr "a.com"]>
             (<["port":=JInt 443]> ∅)))
           "HY" "hysteria" hysteria1 "n").
  - vm_compute; reflexivity.
  - vm_compute; reflexivity.
  - apply list_elem_of_In. vm_compute. tauto.
  - apply list_elem_of_In. vm_compute. tauto.
Defined.

(** ** Aliases of fields *)

Lemma get_value_by_alias data alias name v :
  get_value (<[alias:=v]> data) alias name = Some v.
Proof. unfold get_value. by rewrite lookup_insert_eq. Qed.

Lemma get_value_by_name data alias name v :
  data !! alias = None → alias ≠ name →
  get_value (<[name:=v]> data) alias name = Some v.
Proof.
  intros Ha Hne. unfold get_value.
  rewrite lookup_insert_ne by done. by rewrite Ha, lookup_insert_eq.
Qed.

Ltac unfold_all_fields :=
  unfold_handlers; unfold required, defaulted, optional.

(** X4: for every field that has an alias ([id] for [uuid], [headerType],
    [authString], [protocolString], [obfsPassword]): a value given under
    the name of the field, when the alias is absent, is handled as the
    same value given under the alias; and when the alias is given, what
    the input has under the name of the field is ignored. *)
Theorem alias_or_field_name m alias name data v w nm :
  (alias, name) ∈ aliased_fields m →
  (data !! alias = None →
     handler_of m (<[name:=v]> data) nm = handler_of m (<[alias:=v]> data) nm)
  ∧ handler_of m (<[alias:=v]> (<[name:=w]> data)) nm
    = handler_of m (<[alias:=v]> data) nm.
Proof.
  intros Hin. apply list_elem_of_In in Hin.
  destruct m; simpl in Hin; intuition (try done); simplify_eq;
    unfold_all_fields;
    rewrite ?get_value_by_alias;
    rewrite ?get_value_by_name by done;
    rewrite ?get_value_insert_ne by discriminate;
    reflexivity.
Qed.

Lemma alias_or_field_name_witness :
  let data : gmap string json :=
    <["address":=JStr "a.com"]> (<["port":=JInt 443]> ∅) in
  handler_of vless (<["uuid":=JStr Sample.a_uuid]> data) "n"
  = handler_of vless (<["id":=JStr Sample.a_uuid]> data) "n".
Proof.
  intros data.
  destruct (alias_or_field_name vless "id" "uuid" data (JStr Sample.a_uuid) JNull "n")
    as [H _].
  - apply list_elem_of_In. simpl. tauto.
  - apply H. vm_compute; reflexivity.
Defined.

(** ** Passwords and methods *)











(** ** The links of VLESS, Trojan and Hysteria 2 *)

Lemma or_else_nonempty o d : d ≠ "" → Py.or_else o d ≠ "".
Proof.
  intros Hd. unfold Py.or_else. destruct o as [s|]; [|done].
  by destruct (String.eqb_spec s "").
Qed.

(** X7: the link of a validated VLESS config is
    [vless://{uuid}@{address}:{port}?{query}#{quoted name}]; the query
    always has [encryption] and a [type] that is not empty ([tcp] when the
    network is [None] or empty), and has [security], [sni], [flow],
    [alpn], [path], [host] and [headerType] exactly when the field is
    neither [None] nor empty, with the value of the field. *)
Theorem vless_link data c name :
  VLESSConfig.new data = inr c →
  convert_vless data name
  = inr ("vless://" ++ VLESSConfig.uuid c ++ "@" ++ VLESSConfig.address c ++ ":"
           ++ Py.str_of_int (VLESSConfig.port c) ++ "?"
           ++ urllib.urlencode (vless_params c) ++ "#" ++ urllib.quote name)
  ∧ Py.or_else (VLESSConfig.network c) "tcp" ≠ ""
  ∧ ∀ k v, (k, v) ∈ vless_params c ↔
      (k = "encryption" ∧ v = VLESSConfig.encryption c)
      ∨ (k = "type" ∧ v = Py.or_else (VLESSConfig.network c) "tcp")
      ∨ (k = "security" ∧ VLESSConfig.tls c = Some v ∧ v ≠ "")
      ∨ (k = "sni" ∧ VLESSConfig.sni c = Some v ∧ v ≠ "")
      ∨ (k = "flow" ∧ VLESSConfig.flow c = Some v ∧ v ≠ "")
      ∨ (k = "alpn" ∧ VLESSConfig.alpn c = Some v ∧ v ≠ "")
      ∨ (k = "path" ∧ VLESSConfig.path c = Some v ∧ v ≠ "")
      ∨ (k = "host" ∧ VLESSConfig.host c = Some v ∧ v ≠ "")
      ∨ (k = "headerType" ∧ VLESSConfig.header_type c = Some v ∧ v ≠ "").
Proof.
  intros Hnew. split; [|split].
  - unfold convert_vless. rewrite Hnew. fold (vless_params c).
    by rewrite !append_assoc.
  - by apply or_else_nonempty.
  - intros k v. unfold vless_params.
    rewrite !elem_of_app, !elem_of_cons, elem_of_nil, !item_if_elem.
    split; [intros [[[= -> ->]|[[= -> ->]|[]]]|H]; tauto|].
    intros [[-> ->]|[[-> ->]|H]]; [tauto|tauto|]. right. tauto.
Qed.

Lemma vless_link_witness :
  convert_vless
    (<["id":=JStr Sample.a_uuid]> (<["address":=JStr "a.com"]> (<["port":=JInt 443]>
      (<["tls":=JStr "reality"]> (<["network":=JStr ""]> ∅))))) "n"
  = inr "vless://550e8400-e29b-41d4-a716-446655440000@a.com:443?encryption=none&type=tcp&security=reality#n".
Proof.
  destruct (vless_link
    (<["id":=JStr Sample.a_uuid]> (<["address":=JStr "a.com"]> (<["port":=JInt 443]>
      (<["tls":=JStr "reality"]> (<["network":=JStr ""]> ∅)))))
    (VLESSConfig.Build Sample.a_uuid "a.com" 443 "vless" "none" None (Some "reality")
       None None (Some "") None None None) "n") as [H _].
  - vm_compute; reflexivity.
  - rewrite H. vm_compute; reflexivity.
Defined.

(** X8: the link of a validated Trojan config is
    [trojan://{password}@{address}:{port}?{query}#{quoted name}]; the
    query always has a [type] that is not empty, and has [security],
    [sni], [alpn], [path] and [host] exactly when the field is neither
    [None] nor empty. *)
Theorem trojan_link data c name :
  TROJANConfig.new data = inr c →
  convert_trojan data name
  = inr ("trojan://" ++ TROJANConfig.password c ++ "@" ++ TROJANConfig.address c ++ ":"
           ++ Py.str_of_int (TROJANConfig.port c) ++ "?"
           ++ urllib.urlencode (trojan_params c) ++ "#" ++ urllib.quote name)
  ∧ Py.or_else (TROJANConfig.network c) "tcp" ≠ ""
  ∧ ∀ k v, (k, v) ∈ trojan_params c ↔
      (k = "type" ∧ v = Py.or_else (TROJANConfig.network c) "tcp")
      ∨ (k = "security" ∧ TROJANConfig.tls c = Some v ∧ v ≠ "")
      ∨ (k = "sni" ∧ TROJANConfig.sni c = Some v ∧ v ≠ "")
      ∨ (k = "alpn" ∧ TROJANConfig.alpn c = Some v ∧ v ≠ "")
      ∨ (k = "path" ∧ TROJANConfig.path c = Some v ∧ v ≠ "")
      ∨ (k = "host" ∧ TROJANConfig.host c = Some v ∧ v ≠ "").
Proof.
  intros Hnew. split; [|split].
  - unfold convert_trojan. rewrite Hnew. fold (trojan_params c).
    by rewrite !append_assoc.
  - by apply or_else_nonempty.
  - intros k v. unfold trojan_params.
    rewrite !elem_of_app, !elem_of_cons, elem_of_nil, !item_if_elem.
    split; [intros [[[= -> ->]|[]]|H]; tauto|].
    intros [[-> ->]|H]; [tauto|]. right. tauto.
Qed.

Lemma trojan_link_witness :
  convert_trojan
    (<["password":=JStr "secret"]> (<["address":=JStr "a.com"]> (<["port":=JInt 443]>
      (<["tls":=JNull]> (<["sni":=JStr "b.com"]> ∅))))) "n"
  = inr "trojan://secret@a.com:443?type=tcp&sni=b.com#n".
Proof.
  destruct (trojan_link
    (<["password":=JStr "secret"]> (<["address":=JStr "a.com"]> (<["port":=JInt 443]>
      (<["tls":=JNull]> (<["sni":=JStr "b.com"]> ∅)))))
    (TROJANConfig.Build "secret" "a.com" 443 "trojan" None (Some "b.com") None
       (Some "tcp") None None) "n") as [H _].
  - vm_compute; reflexivity.
  - rewrite H. vm_compute; reflexivity.
Defined.

(** X9: the link of a validated Hysteria 2 config is
    [hy2://{quoted password}@{address}:{port}], then [?{query}] unless
    [tls], [sni], [alpn], [obfs] and [obfs_password] are all [None] or
    empty, then [#{quoted name}]; the query has [tls=1] when [tls] is
    true, and [sni], [alpn], [obfs] and [obfs-password] when the field is
    not empty. *)
Theorem hysteria2_link data c name :
  Hysteria2Config.new data = inr c →
  let base :=
    "hy2://" ++ urllib.quote (Hysteria2Config.password c)
      ++ "@" ++ Hysteria2Config.address c
      ++ ":" ++ Py.str_of_int (Hysteria2Config.port c) in
  let params := hysteria2_params c in
  (∀ k v, (k, v) ∈ params ↔
      (k = "tls" ∧ v = "1" ∧ Py.truthy (Hysteria2Config.tls c) = true)
      ∨ (k = "sni" ∧ Hysteria2Config.sni c = Some v ∧ v ≠ "")
      ∨ (k = "alpn" ∧ Hysteria2Config.alpn c = Some v ∧ v ≠ "")
      ∨ (k = "obfs" ∧ Hysteria2Config.obfs c = Some v ∧ v ≠ "")
      ∨ (k = "obfs-password" ∧ Hysteria2Config.obfs_password c = Some v ∧ v ≠ ""))
  ∧ (params = [] →
       convert_hysteria2 data name = inr (base ++ "#" ++ urllib.quote name))
  ∧ (params ≠ [] →
       convert_hysteria2 data name
       = inr (base ++ "?" ++ urllib.urlencode params ++ "#" ++ urllib.quote name)).
Proof.
  intros Hnew base params. split; [|split].
  - intros k v. unfold params, hysteria2_params.
    rewrite !elem_of_app, flag_if_elem, !item_if_elem. tauto.
  - intros Hnil. unfold convert_hysteria2. rewrite Hnew. fold params.
    rewrite Hnil, with_query_empty. unfold base. by rewrite !append_assoc.
  - intros Hne. unfold convert_hysteria2. rewrite Hnew. fold params.
    destruct params as [|kv params']; [done|].
    rewrite with_query_nonempty. unfold base. by rewrite !append_assoc.
Qed.

Lemma hysteria2_link_witness :
  convert_hysteria2
    (<["password":=JStr "se cret"]> (<["address":=JStr "a.com"]> (<["port":=JInt 443]>
      (<["obfs":=JStr "salamander"]> (<["obfsPassword":=JStr "x&y"]> ∅))))) "n"
  = inr "hy2://se%20cret@a.com:443?tls=1&alpn=h3&obfs=salamander&obfs-password=x%26y#n".
Proof.
  destruct (hysteria2_link
    (<["password":=JStr "se cret"]> (<["address":=JStr "a.com"]> (<["port":=JInt 443]>
      (<["obfs":=JStr "salamander"]> (<["obfsPassword":=JStr "x&y"]> ∅)))))
    (Hysteria2Config.Build "hy2" "se cret" "a.com" 443 (Some "tls") None (Some "h3")
       (Some "salamander") (Some "x&y")) "n") as (_ & _ & H).
  - vm_compute; reflexivity.
  - rewrite H; [vm_compute; reflexivity|]. vm_compute. discriminate.
Defined.

(** ** Exceptions that [convert] does not wrap *)



(** ** The fragment of a link *)

Lemma contains_app c s1 s2 :
  Py.contains c (s1 ++ s2) = Py.contains c s1 || Py.contains c s2.
Proof.
  induction s1 as [|d s1 IH]; [done|].
  change (Py.contains c (String d (s1 ++ s2))
          = Py.contains c (String d s1) || Py.contains c s2).
  cbn [Py.contains]. by rewrite IH, orb_assoc.
Qed.

(** The three characters of a percent escape are a percent sign and two
    digits or capital letters. *)
Lemma percent_chars b c :
  Py.contains c (urllib.percent b) = true →
  urllib.always_safe c = true ∨ c = "%"%char.
Proof.
  unfold urllib.percent. cbn [Py.contains].
  rewrite !orb_true_iff, !Ascii.eqb_eq.
  intros [->|[->|[->|?]]]; [by right|left|left|done];
    destruct b as [[] [] [] [] [] [] [] []]; vm_compute; reflexivity.
Qed.

Lemma quote_bytes_chars safe bs c :
  Py.contains c (urllib.quote_bytes safe bs) = true →
  urllib.always_safe c = true ∨ Py.contains c safe = true ∨ c = "%"%char.
Proof.
  induction bs as [|b bs IH]; [done|].
  cbn [urllib.quote_bytes]. rewrite contains_app, orb_true_iff.
  intros [H|H]; [|by apply IH].
  destruct (urllib.always_safe b || Py.contains b safe) eqn:Hb.
  - cbn in H. rewrite orb_false_r in H. apply Ascii.eqb_eq in H as ->.
    apply orb_true_iff in Hb. tauto.
  - apply percent_chars in H. tauto.
Qed.

Lemma handler_fragment m data name uri :
  handler_of m data name = inr uri → ∃ body, uri = body ++ "#" ++ urllib.quote name.
Proof.
  destruct m; cbn [handler_of].
  - unfold convert_vless. destruct (VLESSConfig.new data); [done|].
    intros [= <-]. eexists. rewrite <- !append_assoc. reflexivity.
  - intros H. destruct (convert_vmess_raises data name) as [e He]. congruence.
  - unfold convert_trojan. destruct (TROJANConfig.new data); [done|].
    intros [= <-]. eexists. rewrite <- !append_assoc. reflexivity.
  - unfold convert_shadowsocks. destruct (ShadowsocksConfig.new data); [done|].
    intros [= <-]. eexists. rewrite <- !append_assoc. reflexivity.
  - unfold convert_hysteria1. destruct (Hysteria1Config.new data); [done|].
    intros [= <-]. by eexists.
  - unfold convert_hysteria2. destruct (Hysteria2Config.new data); [done|].
    intros [= <-]. by eexists.
Qed.

(** X11: every link that [convert] returns ends with [#] and the quoted
    display name, and the quoted name is made of letters, digits, the
    characters [_.-~/] and percent signs only: whatever the name, it
    brings no [#], [?], [@], [:], [&], [=] or space into the link. *)
Theorem link_fragment text name uri :
  convert text name = Some (inr uri) →
  (∃ body, uri = body ++ "#" ++ urllib.quote name)
  ∧ ∀ c, Py.contains c (urllib.quote name) = true →
         urllib.always_safe c = true ∨ c = "/"%char ∨ c = "%"%char.
Proof.
  intros (d & p & m & _ & _ & _ & Hh)%convert_link_inv. split.
  - by apply (handler_fragment m d).
  - intros c Hc. apply quote_bytes_chars in Hc as [H|[H|H]]; [tauto| |tauto].
    cbn in H. rewrite orb_false_r in H. apply Ascii.eqb_eq in H. tauto.
Qed.

Lemma link_fragment_witness :
  ∃ body,
    "trojan://secret@a.com:443?type=tcp&security=tls#a%20%23b%3F"
    = body ++ "#" ++ urllib.quote "a #b?".
Proof.
  apply (link_fragment (Sample.minimal trojan) "a #b?").
  vm_compute; reflexivity.
Defined.

(** * utils.py *)

(** ** [StringValidator.sanitize_string] *)

Section strings.

Import StringValidatorRest.























End strings.

(** ** [StringValidator.is_valid_port] *)

Lemma port_checked_bool data (b : bool) :
  data !! "port" = Some (JBool b) →
  required int [VLESSConfig.validate_port] data "port" "port"
  = if b then inr 1%Z else inl [("port", ValueError (port_message 0))].
Proof.
  intros H. unfold required, get_value. rewrite H.
  unfold validate, VLESSConfig.validate_port, port_message. by destruct b.
Qed.

(** X14: on a port that is an [int] or a [bool], [is_valid_port] and
    the validators of the six classes agree: [is_valid_port] accepts the
    value exactly when validation reports no error for the port. *)
Theorem is_valid_port_agrees m data v :
  data !! "port" = Some v →
  type_name v = "int" ∨ type_name v = "bool" →
  StringValidatorRest.is_valid_port v = true ↔ ∀ e, ("port", e) ∉ errors m data.
Proof.
  intros Hport Hv.
  destruct v as [|b|n| | |]; try (by destruct Hv); cbn [StringValidatorRest.is_valid_port].
  - destruct b; split; try done.
    + intros _ e.
      destruct m; unfold_fields; fold_port data;
        rewrite (port_checked_bool _ _ Hport), ?errors_of_ap, ?elem_of_app;
        intros H; repeat match goal with H : _ ∨ _ |- _ => destruct H as [H|H] end;
        match goal with
        | H : _ ∈ _ |- _ => simpl in H; solve [ by apply elem_of_nil in H | wrong_loc H ]
        end.
    + intros H. exfalso. apply (H (ValueError (port_message 0))).
      destruct m; unfold_fields; fold_port data;
        rewrite (port_checked_bool _ _ Hport), ?errors_of_ap;
        repeat (apply elem_of_app;
                first [ right; apply list_elem_of_singleton; reflexivity | left ]).
  - rewrite andb_true_iff, !Z.leb_le. split.
    + intros Hn e. by apply (port_error_free m data n).
    + intros H. destruct (decide (1 ≤ n ≤ 65535)%Z) as [|Hn]; [lia|].
      exfalso. apply (H (ValueError (port_message n))).
      apply port_error_listed; [done|lia].
Qed.

Lemma is_valid_port_agrees_witness :
  StringValidatorRest.is_valid_port (JBool true) = true
  ↔ ∀ e, ("port", e) ∉ errors trojan (<["port":=JBool true]> ∅).
Proof.
  apply (is_valid_port_agrees trojan (<["port":=JBool true]> ∅) (JBool true)).
  - vm_compute; reflexivity.
  - right. reflexivity.
Defined.

(** ** [ConfigAnalyzer] *)

Lemma lower_empty p : Py.lower p = "" → p = "".
Proof. by destruct p. Qed.

(** X15: [extract_protocol] returns [None] exactly when the
    configuration has no protocol or has the empty string as protocol. *)
Theorem extract_protocol_none_iff config :
  ConfigAnalyzer.extract_protocol config = inr None ↔
  config !! "protocol" = None ∨ config !! "protocol" = Some (JStr "").
Proof.
  unfold ConfigAnalyzer.extract_protocol.
  destruct (config !! "protocol") as [v|];
    cbv beta iota zeta delta [default from_option id]; [|by split; [left|]].
  destruct v as [| | |p| |]; try (split; [done|by intros [|[=]]]).
  destruct (String.eqb_spec (Py.lower p) "") as [Hp|Hp]; split; try done.
  - intros _. right. by rewrite (lower_empty p Hp).
  - intros [|[= ->]]; [done|]. by destruct Hp.
Qed.

Lemma extract_protocol_none_iff_witness :
  ConfigAnalyzer.extract_protocol (<["port":=JInt 1]> ∅) = inr None.
Proof.
  apply (proj2 (extract_protocol_none_iff (<["port":=JInt 1]> ∅))).
  left. vm_compute; reflexivity.
Defined.

Lemma registry_required p m :
  (p, m) ∈ registry → p ≠ "" ∧ ConfigAnalyzer.get_required_fields p ≠ [].
Proof.
  unfold registry. rewrite !elem_of_cons, elem_of_nil.
  intros H.
  repeat (destruct H as [[= -> ->]|H]; [split; vm_compute; discriminate|]).
  destruct H.
Qed.

(** X16: [extract_protocol] reads the protocol as [convert] does.  It
    raises exactly when [convert] raises the exception that it does not
    wrap, and raises the same one; the protocol that [convert] reports as
    unsupported is the one [extract_protocol] returns ([None] for the
    empty one); and when [convert] returns a link, [extract_protocol]
    returns a protocol for which [get_required_fields] has an entry. *)
Theorem extract_protocol_agrees config name :
  (∀ e, ConfigAnalyzer.extract_protocol config = inl e
        ↔ convert_loaded (JObject config) name = inl (Uncaught e))
  ∧ (∀ q, convert_loaded (JObject config) name = inl (UnsupportedProtocol q) →
          ConfigAnalyzer.extract_protocol config
          = inr (if String.eqb q "" then None else Some q))
  ∧ (∀ uri, convert_loaded (JObject config) name = inr uri →
            ∃ q, ConfigAnalyzer.extract_protocol config = inr (Some q)
                 ∧ ConfigAnalyzer.get_required_fields q ≠ []).
Proof.
  unfold ConfigAnalyzer.extract_protocol, convert_loaded.
  destruct (default (JStr "") (config !! "protocol")) as [| | |p| |];
    try (split; [intros e; split; congruence|split; [done|done]]).
  cbv zeta.
  destruct (lookup_handler (Py.lower p) protocol_handlers) as [h|] eqn:Hh.
  - split; [|split].
    + intros e. split; [done|]. by destruct (h config name).
    + intros q. by destruct (h config name).
    + intros uri _. apply lookup_handler_inv in Hh as (m & Hm & _).
      destruct (registry_required _ _ Hm) as [Hne Hreq].
      exists (Py.lower p). split; [|done].
      by destruct (String.eqb_spec (Py.lower p) "").
  - split; [|split]; [by intros e; split| |done].
    by intros q [= <-].
Qed.

(** X17: [get_required_fields] has an entry for exactly the protocols
    that [convert] has a handler for. *)
Theorem required_fields_known_protocols protocol :
  ConfigAnalyzer.get_required_fields protocol = [] ↔
  lookup_handler (Py.lower protocol) protocol_handlers = None.
Proof.
  unfold ConfigAnalyzer.get_required_fields, ConfigAnalyzer.required_fields,
    protocol_handlers.
  generalize (Py.lower protocol). intros q.
  cbn [ConfigAnalyzer.get lookup_handler].
  repeat destruct (String.eqb q _); split; done.
Qed.

Lemma required_fields_known_protocols_witness :
  ConfigAnalyzer.get_required_fields "wireguard" = [].
Proof.
  apply (proj2 (required_fields_known_protocols "wireguard")).
  vm_compute; reflexivity.
Defined.

Lemma handler_no_errors m data name uri :
  handler_of m data name = inr uri → errors m data = [].
Proof.
  intros H. destruct (errors m data) as [|e errs] eqn:He; [done|].
  assert (Hne : errors m data ≠ []) by (by rewrite He).
  apply raised_of_errors, (handler_raised _ _ name) in Hne. congruence.
Qed.

Ltac split_lookups d :=
  repeat match goal with
         | |- context [d !! ?k] => destruct (d !! k) as [?|] eqn:?
         end.

(** X18: when [validate_required_fields] finds nothing missing for a
    protocol that [convert] handles, validation by the class of that
    protocol reports no missing field. *)
Theorem required_fields_sufficient config protocol m :
  (Py.lower protocol, m) ∈ registry →
  (ConfigAnalyzer.validate_required_fields config protocol).1 = true →
  missing_locs (errors m config) = [].
Proof.
  rewrite errors_missing.
  unfold ConfigAnalyzer.validate_required_fields, ConfigAnalyzer.get_required_fields,
    registry.
  rewrite !elem_of_cons, elem_of_nil. intros H.
  repeat (destruct H as [[= -> ->]|H];
          [ unfold absent_required, required_fields, get_value;
            cbn [ConfigAnalyzer.get ConfigAnalyzer.required_fields String.eqb Ascii.eqb
                 Bool.eqb List.filter omap list_omap fst snd];
            split_lookups config; cbn; done |]).
  destruct H.
Qed.

Lemma required_fields_sufficient_witness :
  missing_locs
    (errors trojan
       (<["protocol":=JStr "Trojan"]> (<["password":=JStr "secret"]>
          (<["address":=JStr "a.com"]> (<["port":=JInt 0]> ∅))))) = [].
Proof.
  apply (required_fields_sufficient _ "Trojan" trojan).
  - apply list_elem_of_In; vm_compute; tauto.
  - vm_compute; reflexivity.
Defined.

(** X19: the converse fails, because [validate_required_fields] knows
    one key for each field while the classes read a field under its
    alias and under its name: a configuration for VLESS that gives the
    identifier as [id] and has no [uuid] is converted, and
    [validate_required_fields] reports [uuid] as missing. *)
Theorem required_fields_ignore_alias text config p name uri :
  Json.loads text = Json.Value (JObject config) →
  config !! "protocol" = Some (JStr p) →
  Py.lower p = "vless" →
  config !! "uuid" = None →
  convert text name = Some (inr uri) →
  ConfigAnalyzer.validate_required_fields config p = (false, ["uuid"]).
Proof.
  intros Hl Hp Hlow Hu Hc.
  assert (Hreg : (Py.lower p, vless) ∈ registry).
  { rewrite Hlow. apply list_elem_of_In; vm_compute; tauto. }
  rewrite (convert_dispatch _ _ _ _ name Hl Hp Hreg) in Hc.
  assert (Hh : handler_of vless config name = inr uri).
  { destruct (handler_of vless config name); congruence. }
  apply handler_no_errors in Hh.
  pose proof (errors_missing vless config) as Hm. rewrite Hh in Hm.
  revert Hm.
  unfold ConfigAnalyzer.validate_required_fields, ConfigAnalyzer.get_required_fields.
  rewrite Hlow.
  unfold absent_required, required_fields, get_value.
  cbn [ConfigAnalyzer.get ConfigAnalyzer.required_fields String.eqb Ascii.eqb
       Bool.eqb List.filter omap list_omap fst snd missing_locs].
  rewrite Hu, Hp.
  split_lookups config; cbn; done.
Qed.

Lemma required_fields_ignore_alias_witness :
  ConfigAnalyzer.validate_required_fields
    (<["protocol":=JStr "vless"]> (<["id":=JStr Sample.a_uuid]>
       (<["address":=JStr "a.com"]> (<["port":=JInt 443]> ∅)))) "vless"
  = (false, ["uuid"]).
Proof.
  eapply (required_fields_ignore_alias
            (Sample.object [("protocol", Sample.quoted "vless");
                            ("id", Sample.quoted Sample.a_uuid);
                            ("address", Sample.quoted "a.com"); ("port", "443")])
            _ "vless" "n").
  all: vm_compute; reflexivity.
Defined.

(** ** [RateLimiter] *)

Section limiter.

Context {T : Type}.
Variable later : T → T → bool.
Variable minus : T → Z → T.

Implicit Types (user_requests : RateLimiter.requests (T:=T)) (now : T).

Lemma add_request_lookup now user_id user_requests :
  RateLimiter.add_request now user_id user_requests !! user_id
  = Some (default [] (user_requests !! user_id) ++ [now])%list.
Proof.
  unfold RateLimiter.add_request, RateLimiter.requests in *.
  destruct (user_requests !! user_id) as [reqs|] eqn:H; cbv zeta.
  - by rewrite lookup_alter_eq, H.
  - by rewrite lookup_alter_eq, lookup_insert_eq.
Qed.

Lemma add_request_lookup_ne now user_id other user_requests :
  other ≠ user_id →
  RateLimiter.add_request now user_id user_requests !! other = user_requests !! other.
Proof.
  intros Hne. unfold RateLimiter.add_request, RateLimiter.requests in *. cbv zeta.
  rewrite lookup_alter_ne by done.
  destruct (user_requests !! user_id); [done|]. by rewrite lookup_insert_ne.
Qed.

Lemma filter_length_le (f : T → bool) l :
  (length (List.filter f l) ≤ length l)%nat.
Proof.
  induction l as [|x l IH]; [done|]. cbn [List.filter].
  destruct (f x); cbn [length]; lia.
Qed.

Lemma filter_idem (f : T → bool) l :
  List.filter f (List.filter f l) = List.filter f l.
Proof.
  induction l as [|x l IH]; [done|]. cbn [List.filter].
  destruct (f x) eqn:Hx; [|done]. cbn [List.filter]. by rewrite Hx, IH.
Qed.

Lemma recorded_lookup user_id events user_requests :
  foldl (λ s (event : Z * T), RateLimiter.add_request event.2 event.1 s)
        user_requests events !! user_id
  = match RateLimiter.requests_of user_id events with
    | [] => user_requests !! user_id
    | reqs => Some (default [] (user_requests !! user_id) ++ reqs)%list
    end.
Proof.
  unfold RateLimiter.requests in *.
  revert user_requests. induction events as [|[u t] events IH]; intros s; [done|].
  cbn [foldl fst snd]. rewrite IH. unfold RateLimiter.requests_of.
  cbn [omap list_omap fst snd].
  fold (RateLimiter.requests_of user_id events).
  destruct (Z.eqb_spec u user_id) as [->|Hne].
  - rewrite add_request_lookup.
    destruct (RateLimiter.requests_of user_id events); cbn [default from_option id].
    + done.
    + by rewrite <- app_assoc.
  - by rewrite add_request_lookup_ne.
Qed.

(** X20: [add_request] puts the clock value at the end of the list of
    the user, starting that list when the user is new, and leaves the
    lists of the other users as they are. *)
Theorem add_request_appends now user_id user_requests :
  RateLimiter.add_request now user_id user_requests !! user_id
  = Some (default [] (user_requests !! user_id) ++ [now])%list
  ∧ ∀ other, other ≠ user_id →
      RateLimiter.add_request now user_id user_requests !! other
      = user_requests !! other.
Proof.
  split; [apply add_request_lookup|]. intros other. apply add_request_lookup_ne.
Qed.

(** X21: after any sequence of [add_request] calls on a fresh limiter,
    [is_rate_limited] answers [False] for a user who made none of them
    (also when [max_requests] is 0 or negative), and for any other user
    it answers whether at least [max_requests] of the user's calls have a
    clock value greater than the current one minus the window. *)
Theorem recorded_requests_limited now user_id max_requests time_window events :
  (RateLimiter.is_rate_limited later minus now user_id max_requests time_window
     (RateLimiter.record events)).1
  = match RateLimiter.requests_of user_id events with
    | [] => false
    | reqs =>
        (max_requests <=?
           Z.of_nat (length (List.filter
                               (λ req_time, later req_time (minus now time_window))
                               reqs)))%Z
    end.
Proof.
  unfold RateLimiter.is_rate_limited, RateLimiter.record, RateLimiter.requests in *.
  rewrite recorded_lookup. unfold RateLimiter.requests.
  destruct (RateLimiter.requests_of user_id events); [|done].
  by rewrite lookup_empty.
Qed.

(** X22: asking [is_rate_limited] again with the same clock value and
    the same arguments gives the same answer and leaves the dict as the
    first call left it. *)
Theorem is_rate_limited_again now user_id max_requests time_window user_requests :
  let first :=
    RateLimiter.is_rate_limited later minus now user_id max_requests time_window
      user_requests in
  RateLimiter.is_rate_limited later minus now user_id max_requests time_window first.2
  = first.
Proof.
  unfold RateLimiter.is_rate_limited, RateLimiter.requests in *.
  destruct (user_requests !! user_id) as [reqs|] eqn:H; cbn [snd].
  - by rewrite lookup_insert_eq, filter_idem, insert_insert_eq.
  - by rewrite H.
Qed.

(** X23: while no request is added, a user who was found not limited is
    found not limited by the next call too, whatever the clock and the
    window of that call: the calls only shorten the list of the user. *)
Theorem not_limited_stays now now' user_id max_requests time_window time_window'
    user_requests :
  let first :=
    RateLimiter.is_rate_limited later minus now user_id max_requests time_window
      user_requests in
  first.1 = false →
  (RateLimiter.is_rate_limited later minus now' user_id max_requests time_window'
     first.2).1 = false.
Proof.
  unfold RateLimiter.is_rate_limited, RateLimiter.requests in *.
  destruct (user_requests !! user_id) as [reqs|] eqn:H; cbn [fst snd].
  - rewrite lookup_insert_eq. cbn [fst]. rewrite !Z.leb_gt. intros Hlt.
    pose proof (filter_length_le
                  (λ req_time, later req_time (minus now' time_window'))
                  (List.filter (λ req_time, later req_time (minus now time_window)) reqs)).
    lia.
  - by rewrite H.
Qed.

(** X24: [cleanup_old_users] changes nothing while the dict has at most
    [max_users] users; when it has more, the users that stay are those
    with a request whose clock value is greater than the current one
    minus 3600, each with its whole list; so a user whose list is empty
    is removed. *)
Theorem cleanup_keeps_recent now max_users user_requests :
  ((Z.of_nat (size user_requests) ≤ max_users)%Z →
   RateLimiter.cleanup_old_users later minus now max_users user_requests = user_requests)
  ∧ ((max_users < Z.of_nat (size user_requests))%Z →
     ∀ user_id reqs,
       RateLimiter.cleanup_old_users later minus now max_users user_requests !! user_id
       = Some reqs
       ↔ user_requests !! user_id = Some reqs
         ∧ ∃ req, req ∈ reqs ∧ later req (minus now 3600) = true).
Proof.
  unfold RateLimiter.cleanup_old_users, RateLimiter.requests in *. split; intros Hsize.
  - by rewrite (proj2 (Z.ltb_ge _ _) Hsize).
  - rewrite (proj2 (Z.ltb_lt _ _) Hsize). intros user_id reqs.
    rewrite map_lookup_filter_Some. cbn [snd]. rewrite existsb_exists.
    split; intros [H (req & Hin & Hreq)]; (split; [done|]); exists req;
      (split; [by apply list_elem_of_In|done]).
Qed.

End limiter.

Lemma not_limited_stays_witness :
  (RateLimiter.is_rate_limited Z.gtb Z.sub 200%Z 7%Z 2%Z 60%Z
     (RateLimiter.is_rate_limited Z.gtb Z.sub 100%Z 7%Z 2%Z 60%Z
        (RateLimiter.record [(7, 10); (7, 90)]%Z)).2).1 = false.
Proof.
  apply (not_limited_stays Z.gtb Z.sub 100%Z 200%Z 7%Z 2%Z 60%Z 60%Z
           (RateLimiter.record [(7, 10); (7, 90)]%Z)).
  vm_compute; reflexivity.
Defined.

Lemma cleanup_keeps_recent_witness :
  RateLimiter.cleanup_old_users Z.gtb Z.sub 5000%Z 1%Z
    (RateLimiter.record [(7, 10); (8, 4000)]%Z) !! 8%Z = Some [4000%Z].
Proof.
  apply (proj2 (cleanup_keeps_recent Z.gtb Z.sub 5000%Z 1%Z
                  (RateLimiter.record [(7, 10); (8, 4000)]%Z))).
  - vm_compute; reflexivity.
  - split; [vm_compute; reflexivity|].
    exists 4000%Z. split; [apply list_elem_of_In; left; reflexivity|reflexivity].
Defined.

(** ** [StringValidator.is_valid_uuid] and the validators of the classes *)

Section canonical.

Import StringValidator StringValidatorRest.

Local Abbreviation hex := (λ c : ascii, is_hex (Py.lower_char c)).
Local Abbreviation hex_or_hyphen := (λ c : ascii, is_hex (Py.lower_char c) || Ascii.eqb c "-").
Local Abbreviation no_hyphen := (λ c : ascii, negb (Ascii.eqb c "-")).
Local Abbreviation chars := list_ascii_of_string.

(** What a hexadecimal digit, in either case, is not, and what it is for
    [int]. *)
Lemma hex_facts c :
  is_hex (Py.lower_char c) = true →
  Ascii.eqb c "u" = false ∧ Ascii.eqb c "-" = false ∧ Py.contains c "{}" = false
  ∧ Py.is_space c = false ∧ Py.is_char 43 c = false ∧ Py.is_char 45 c = false
  ∧ Py.is_char 120 c = false ∧ Py.is_char 88 c = false ∧ Py.is_char 95 c = false
  ∧ from_option (λ d, d <? 16)%Z false (Py.digit_value c) = true.
Proof.
  destruct c as [[] [] [] [] [] [] [] []]; vm_compute; intros H;
    first [discriminate H | repeat split].
Qed.

Lemma lower_hyphen c : Ascii.eqb (Py.lower_char c) "-" = true → c = "-"%char.
Proof.
  destruct c as [[] [] [] [] [] [] [] []]; vm_compute; intros H;
    first [discriminate H | reflexivity].
Qed.

Lemma hex_run_S k c s r :
  hex_run (S k) (String c s) = Some r → is_hex c = true ∧ hex_run k s = Some r.
Proof. cbn [hex_run]. by destruct (is_hex c). Qed.

Lemma hyphen_lower c s r :
  hyphen (String (Py.lower_char c) s) = Some r → c = "-"%char ∧ r = s.
Proof.
  cbn [hyphen]. destruct (Ascii.eqb (Py.lower_char c) "-") eqn:Hc; [|done].
  intros [= <-]. by apply lower_hyphen in Hc.
Qed.

Lemma remove_absent c0 old s :
  forallb (λ c, negb (Ascii.eqb c c0)) (chars s) = true →
  Py.remove (String c0 old) s = s.
Proof.
  unfold Py.remove. induction s as [|c s IH]; [done|].
  cbn [list_ascii_of_string forallb Py.remove_from String.prefix].
  intros [Hc Hs]%andb_true_iff.
  destruct (ascii_dec c0 c) as [->|Hne].
  - by rewrite Ascii.eqb_refl in Hc.
  - rewrite andb_false_r. by rewrite IH.
Qed.

Lemma lstrip_absent cs s :
  forallb (λ c, negb (Py.contains c cs)) (chars s) = true → Py.lstrip cs s = s.
Proof.
  destruct s as [|c s]; [done|]. cbn [list_ascii_of_string forallb Py.lstrip].
  intros [Hc _]%andb_true_iff. by destruct (Py.contains c cs).
Qed.

Lemma rstrip_absent cs s :
  forallb (λ c, negb (Py.contains c cs)) (chars s) = true → Py.rstrip cs s = s.
Proof.
  induction s as [|c s IH]; [done|]. cbn [list_ascii_of_string forallb Py.rstrip].
  intros [Hc Hs]%andb_true_iff. rewrite IH by done.
  destruct s; [|done]. by destruct (Py.contains c cs).
Qed.

Lemma remove_hyphens s : Py.remove "-" s = join_if no_hyphen s.
Proof.
  unfold Py.remove. induction s as [|c s IH]; [done|].
  cbn [Py.remove_from String.prefix join_if String.eqb String.length Nat.sub negb andb].
  destruct (ascii_dec "-" c) as [<-|Hne].
  - replace (String.prefix "" s) with true by (by destruct s).
    by rewrite Ascii.eqb_refl.
  - destruct (Ascii.eqb_spec c "-") as [->|_]; [by destruct Hne|]. cbn [negb]. by rewrite IH.
Qed.

Lemma forallb_weaken (p q : ascii → bool) l :
  (∀ c, p c = true → q c = true) → forallb p l = true → forallb q l = true.
Proof.
  intros Hpq. induction l as [|c l IH]; [done|]. cbn [forallb].
  intros [Hc Hl]%andb_true_iff. by rewrite (Hpq c Hc), IH.
Qed.

Lemma join_if_hex s :
  forallb hex_or_hyphen (chars s) = true →
  forallb hex (chars (join_if no_hyphen s)) = true.
Proof.
  induction s as [|c s IH]; [done|]. cbn [list_ascii_of_string forallb join_if].
  intros [Hc Hs]%andb_true_iff.
  destruct (Ascii.eqb c "-") eqn:He; cbn [negb]; [by apply IH|].
  cbn [list_ascii_of_string forallb]. rewrite orb_false_r in Hc. by rewrite Hc, IH.
Qed.

Lemma int_digits_hex s acc after_digit :
  forallb hex (chars s) = true → after_digit = true ∨ s ≠ "" →
  is_Some (Py.int_digits 16 acc after_digit s).
Proof.
  revert acc after_digit. induction s as [|c s IH]; intros acc b.
  - intros _ [->|?]; [by eexists|done].
  - cbn [list_ascii_of_string forallb Py.int_digits].
    intros [Hc Hs]%andb_true_iff _.
    destruct (hex_facts c Hc) as (_ & _ & _ & _ & _ & _ & _ & _ & -> & Hd).
    destruct (Py.digit_value c) as [d|]; [|done]. cbn in Hd. rewrite Hd.
    apply IH; [done|by left].
Qed.

Lemma int_of_str_hex s :
  forallb hex (chars s) = true → s ≠ "" → is_Some (Py.int_of_str 16 s).
Proof.
  intros Hs Hne. destruct s as [|c s]; [done|].
  pose proof Hs as Hcs. cbn [list_ascii_of_string forallb] in Hcs.
  apply andb_true_iff in Hcs as [Hc Hrest].
  destruct (hex_facts c Hc) as (_ & _ & _ & Hsp & Hplus & Hminus & _).
  unfold Py.int_of_str. cbn [Py.skip_space]. rewrite Hsp, Hplus, Hminus.
  change (16 =? 16)%Z with true. cbv iota.
  assert (Hskip : Py.skip_hex_prefix (String c s) = String c s).
  { destruct s as [|c1 s]; [done|]. cbn [Py.skip_hex_prefix].
    cbn [list_ascii_of_string forallb] in Hrest.
    apply andb_true_iff in Hrest as [Hc1 _].
    destruct (hex_facts c1 Hc1) as (_ & _ & _ & _ & _ & _ & -> & -> & _).
    by rewrite andb_false_r. }
  rewrite Hskip.
  destruct (int_digits_hex (String c s) 0 false Hs) as [n Hn]; [by right|].
  rewrite Hn. by eexists.
Qed.

Lemma join_if_hex_cons c s :
  is_hex (Py.lower_char c) = true →
  join_if no_hyphen (String c s) = String c (join_if no_hyphen s).
Proof.
  intros Hc. cbn [join_if]. by destruct (hex_facts c Hc) as (_ & -> & _).
Qed.

Lemma join_if_hyphen_cons s :
  join_if no_hyphen (String "-" s) = join_if no_hyphen s.
Proof. reflexivity. Qed.

(** A string of hexadecimal digits and hyphens with 32 digits. *)
Lemma UUID_hex_hyphens s :
  forallb hex_or_hyphen (chars s) = true →
  Py.len (join_if no_hyphen s) = 32%Z →
  uuid.UUID s = true.
Proof.
  intros Hs Hlen. unfold uuid.UUID, Py.strip.
  assert (Hu : forallb (λ c, negb (Ascii.eqb c "u")) (chars s) = true).
  { revert Hs. apply forallb_weaken. intros c [Hc|Hc]%orb_true_iff.
    - by destruct (hex_facts c Hc) as (-> & _).
    - by apply Ascii.eqb_eq in Hc as ->. }
  assert (Hb : forallb (λ c, negb (Py.contains c "{}")) (chars s) = true).
  { revert Hs. apply forallb_weaken. intros c [Hc|Hc]%orb_true_iff.
    - by destruct (hex_facts c Hc) as (_ & _ & -> & _).
    - by apply Ascii.eqb_eq in Hc as ->. }
  cbv zeta.
  rewrite (remove_absent _ _ s Hu), (remove_absent _ _ s Hu),
    (lstrip_absent _ s Hb), (rstrip_absent _ s Hb), remove_hyphens.
  rewrite Hlen. change (32 =? 32)%Z with true. cbv iota.
  apply bool_decide_eq_true, int_of_str_hex; [by apply join_if_hex|].
  intros He. by rewrite He in Hlen.
Qed.

(** X25: a string of 36 characters that [is_valid_uuid] accepts (8, 4,
    4, 4 and 12 hexadecimal digits with hyphens between, in either case)
    is accepted by the validators of [uuid] of the VLESS and VMess
    classes, which return it unchanged. *)
Theorem canonical_uuid_accepted s :
  is_valid_uuid s = true → String.length s = 36%nat →
  VLESSConfig.validate_uuid s = inr s ∧ VMESSConfig.validate_uuid s = inr s.
Proof.
  intros Hv Hl.
  assert (Hu : uuid.UUID s = true);
    [|unfold VLESSConfig.validate_uuid, VMESSConfig.validate_uuid; rewrite Hu;
      split; reflexivity].
  do 36 (destruct s as [|? s]; [discriminate Hl|]).
  destruct s; [clear Hl|discriminate Hl].
  unfold is_valid_uuid in Hv. cbn [Py.lower] in Hv.
  match type of Hv with
  | match ?e with _ => _ end = _ => destruct e as [rest|] eqn:Hc; [clear Hv|discriminate Hv]
  end.
  apply bind_Some in Hc as (s1 & R1 & Hc).
  repeat (apply hex_run_S in R1 as [? R1]). cbn [hex_run] in R1. injection R1 as <-.
  apply bind_Some in Hc as (s2 & R2 & Hc). apply hyphen_lower in R2 as [-> ->].
  apply bind_Some in Hc as (s3 & R3 & Hc).
  repeat (apply hex_run_S in R3 as [? R3]). cbn [hex_run] in R3. injection R3 as <-.
  apply bind_Some in Hc as (s4 & R4 & Hc). apply hyphen_lower in R4 as [-> ->].
  apply bind_Some in Hc as (s5 & R5 & Hc).
  repeat (apply hex_run_S in R5 as [? R5]). cbn [hex_run] in R5. injection R5 as <-.
  apply bind_Some in Hc as (s6 & R6 & Hc). apply hyphen_lower in R6 as [-> ->].
  apply bind_Some in Hc as (s7 & R7 & Hc).
  repeat (apply hex_run_S in R7 as [? R7]). cbn [hex_run] in R7. injection R7 as <-.
  apply bind_Some in Hc as (s8 & R8 & Hc). apply hyphen_lower in R8 as [-> ->].
  repeat (apply hex_run_S in Hc as [? Hc]). clear Hc.
  apply UUID_hex_hyphens.
  - cbn [list_ascii_of_string forallb].
    repeat match goal with
           | H : is_hex (Py.lower_char ?c) = true |- _ => rewrite H; clear H
           end.
    reflexivity.
  - repeat first [ rewrite join_if_hex_cons by assumption
                 | rewrite join_if_hyphen_cons ].
    reflexivity.
Qed.

Lemma canonical_uuid_accepted_witness :
  VLESSConfig.validate_uuid "550E8400-e29b-41d4-A716-446655440000"
  = inr "550E8400-e29b-41d4-A716-446655440000".
Proof.
  apply (canonical_uuid_accepted "550E8400-e29b-41d4-A716-446655440000");
    vm_compute; reflexivity.
Defined.

End canonical.
